(** * Expense Intelligence: the derived-metrics pipeline

    A shallow embedding of [src/components/expense-dashboard.tsx]: the filter
    ([filteredExpenses]), the aggregator (the [useMemo] that yields [total],
    [avgDaily], [avgMonthly], [recurringTotal]), the category bucketizer
    ([categoryBreakdown]), the trend bucketizer ([trend]) and the form
    handler ([handleSubmit] with [handleAddExpense]).

    Conventions.
    - A TypeScript [number] is a value of a type [num] that carries the
      operations the file uses ([JsNumber]).  Two interpretations are given:
      [Binary64] (IEEE-754 doubles, what a JavaScript engine computes) and
      [Rational] (the same operations read in exact arithmetic).  Every
      definition of the pipeline is written once, for any interpretation.
    - An expense's [date] is an ISO string produced by [toISOString]; it is
      kept as the time value it denotes (milliseconds since the epoch, the
      result of [new Date(date).getTime()]).
    - A JavaScript [Map] is an association list in insertion order.
    - Strings are [string]s of 8-bit characters; [trim] and [toLowerCase]
      are the JavaScript methods on ASCII text ([isAscii]) and are not
      meant beyond it: the statements that depend on what they compute are
      made for ASCII text.
    - The value of a date input is kept as the calendar date it spells;
      [newDate] is [new Date] on the form "YYYY-MM-DD" with a year of four
      digits ([isIsoDate]), the only date-only form that ECMAScript itself
      gives a meaning to. *)

From Stdlib Require Import ZArith QArith Qround Qminmax List Bool Lia.
From Stdlib Require Import Ascii String DecimalString Sorted Permutation.
From Stdlib Require Import OrderedTypeEx.
From Stdlib Require Import Floats.
From Stdlib Require DecimalZ.
Import ListNotations.

Set Implicit Arguments.
Local Open Scope Z_scope.

(** * Numbers *)

(** The operations on [number] that the dashboard uses. *)
Class JsNumber (num : Type) : Type := {
  ofZ    : Z -> num;              (* an integer literal or an integral value *)
  nadd   : num -> num -> num;     (* a + b *)
  nsub   : num -> num -> num;     (* a - b *)
  nmul   : num -> num -> num;     (* a * b *)
  ndiv   : num -> num -> num;     (* a / b *)
  nceil  : num -> num;            (* Math.ceil(a) *)
  nmax   : num -> num -> num;     (* Math.max(a, b) *)
  neqb   : num -> num -> bool;    (* a === b *)
  nleb   : num -> num -> bool;    (* a <= b *)
  nisNaN : num -> bool            (* Number.isNaN(a) *)
}.

(** ** IEEE-754 binary64, the numbers of a JavaScript engine *)
Module Binary64.

Local Open Scope float_scope.

(** The double nearest to an integer (ties to even); exact below [2^53] in
    magnitude, which covers every literal of the file and every valid
    time value (at most 8.64e15 in magnitude). *)
Definition of_Z (z : Z) : float :=
  SF2Prim (binary_normalize prec emax z 0 false).

(** The double nearest to the quotient [n / d] of two integers, [0 < d],
    with the sign [s] (which tells [-0] from [+0]). *)
Definition of_ratio (s : bool) (n d : Z) : float :=
  match n, d with
  | Z.pos n', Z.pos d' =>
      SF2Prim (SFdiv prec emax (S754_finite s n' 0) (S754_finite false d' 0))
  | _, _ => SF2Prim (S754_zero s)
  end.

(** [Math.ceil]: NaN, the infinities and the zeros are returned as they
    are; a finite [x = (-1)^s * m * 2^e] with [e < 0] is rounded towards
    plus infinity, a negative fraction above [-1] giving [-0]. *)
Definition ceil (x : float) : float :=
  match Prim2SF x with
  | S754_finite s m e =>
      if (0 <=? e)%Z then x
      else
        let q := (Z.pos m / 2 ^ (- e))%Z in
        let r := (Z.pos m mod 2 ^ (- e))%Z in
        if s then - of_Z q
        else of_Z (if (r =? 0)%Z then q else (q + 1)%Z)
  | _ => x
  end.

(** [Math.max] of two numbers: NaN if either is NaN, and [+0] is larger
    than [-0]. *)
Definition max (a b : float) : float :=
  if PrimFloat.is_nan a || PrimFloat.is_nan b then nan
  else if a <? b then b
  else if b <? a then a
  else if PrimFloat.is_zero a then a + b
  else a.

#[global] Instance number : JsNumber float := {|
  ofZ := of_Z;
  nadd := PrimFloat.add;
  nsub := PrimFloat.sub;
  nmul := PrimFloat.mul;
  ndiv := PrimFloat.div;
  nceil := ceil;
  nmax := max;
  neqb := PrimFloat.eqb;
  nleb := PrimFloat.leb;
  nisNaN := PrimFloat.is_nan
|}.

End Binary64.

(** ** Exact arithmetic: the same operations on rationals *)
Module Rational.

#[global] Instance number : JsNumber Q := {|
  ofZ := inject_Z;
  nadd := Qplus;
  nsub := Qminus;
  nmul := Qmult;
  ndiv := Qdiv;
  nceil := fun q => inject_Z (Qceiling q);
  nmax := Qmax;
  neqb := Qeq_bool;
  nleb := Qle_bool;
  nisNaN := fun _ => false
|}.

End Rational.

(** * Time values and calendar dates (ECMAScript, proleptic Gregorian) *)

Definition msPerDay : Z := 86400000.

(** [Day(t)]: the day number of a time value. *)
Definition Day (t : Z) : Z := t / msPerDay.

(** [TimeWithinDay(t)]: the milliseconds elapsed since the start of the day. *)
Definition TimeWithinDay (t : Z) : Z := t mod msPerDay.

(** A calendar date, as a date input gives it ("YYYY-MM-DD"); [month] is
    1..12. *)
Record CivilDate : Type := { year : Z; month : Z; day : Z }.

(** The day number of a calendar date ([MakeDay(year, month - 1, day)]). *)
Definition daysFromCivil (d : CivilDate) : Z :=
  let y := if month d <=? 2 then year d - 1 else year d in
  let era := y / 400 in
  let yoe := y - era * 400 in
  let mp := if 2 <? month d then month d - 3 else month d + 9 in
  let doy := (153 * mp + 2) / 5 + day d - 1 in
  let doe := yoe * 365 + yoe / 4 - yoe / 100 + doy in
  era * 146097 + doe - 719468.

(** The calendar date of a day number; its [year] is [YearFromTime] and its
    [month - 1] is [MonthFromTime] of any time value within that day. *)
Definition civilFromDays (n : Z) : CivilDate :=
  let z := n + 719468 in
  let era := z / 146097 in
  let doe := z - era * 146097 in
  let yoe := (doe - doe / 1460 + doe / 36524 - doe / 146096) / 365 in
  let doy := doe - (365 * yoe + yoe / 4 - yoe / 100) in
  let mp := (5 * doy + 2) / 153 in
  let d := doy - (153 * mp + 2) / 5 + 1 in
  let m := if mp <? 10 then mp + 3 else mp - 9 in
  {| year := if m <=? 2 then yoe + era * 400 + 1 else yoe + era * 400;
     month := m; day := d |}.

(** [new Date("YYYY-MM-DD").getTime()]: a date-only string of the Date Time
    String Format is read as midnight UTC of that day.  A date input holds
    such a string for the years 0001 to 9999 ([isIsoDate] below).  With a
    longer year its value is outside the format, and what [new Date] makes
    of it is left to the engine (local midnight, or an Invalid Date); this
    function does not tell it, and the statements that depend on the
    instant are made for dates within the format. *)
Definition newDate (d : CivilDate) : Z := msPerDay * daysFromCivil d.

Definition isLeapYear (y : Z) : bool :=
  (y mod 4 =? 0) && (negb (y mod 100 =? 0) || (y mod 400 =? 0)).

Definition daysInMonth (y m : Z) : Z :=
  if m =? 2 then (if isLeapYear y then 29 else 28)
  else if (m =? 4) || (m =? 6) || (m =? 9) || (m =? 11) then 30
  else 31.

(** The date is one that "YYYY-MM-DD" spells in the Date Time String
    Format: a year of four digits and a day that the month has. *)
Definition isIsoDate (d : CivilDate) : bool :=
  (0 <=? year d) && (year d <=? 9999)
  && (1 <=? month d) && (month d <=? 12)
  && (1 <=? day d) && (day d <=? daysInMonth (year d) (month d)).

(** The value of an [<input type="date">]: [None] for the empty string. *)
Definition DateInput : Type := option CivilDate.

(** * Strings *)

(** The white space of ASCII that [trim] removes: tab, line feed, vertical
    tab, form feed, carriage return and space. *)
Definition isWhiteSpace (c : ascii) : bool :=
  match nat_of_ascii c with
  | 9%nat | 10%nat | 11%nat | 12%nat | 13%nat | 32%nat => true
  | _ => false
  end.

Definition lowerChar (c : ascii) : ascii :=
  let n := nat_of_ascii c in
  if ((65 <=? n)%nat && (n <=? 90)%nat)%bool then ascii_of_nat (n + 32) else c.

Fixpoint toLowerCase (s : string) : string :=
  match s with
  | EmptyString => EmptyString
  | String c s' => String (lowerChar c) (toLowerCase s')
  end.

Fixpoint trimStart (s : string) : string :=
  match s with
  | EmptyString => EmptyString
  | String c s' => if isWhiteSpace c then trimStart s' else s
  end.

Definition reverse (s : string) : string :=
  string_of_list_ascii (rev (list_ascii_of_string s)).

Definition trimEnd (s : string) : string := reverse (trimStart (reverse s)).

Definition trim (s : string) : string := trimEnd (trimStart s).

(** The text is ASCII: every character is below 128.  On such text
    [toLowerCase] and [trim] above are the JavaScript methods; beyond it
    the methods also know the letters and the white space of Unicode. *)
Fixpoint isAscii (s : string) : bool :=
  match s with
  | EmptyString => true
  | String c s' => (nat_of_ascii c <? 128)%nat && isAscii s'
  end.

(** [s.includes(t)]: [t] occurs in [s] as a substring. *)
Fixpoint includes (s t : string) : bool :=
  String.prefix t s ||
  match s with
  | EmptyString => false
  | String _ s' => includes s' t
  end.

(** A string is falsy exactly when it is empty. *)
Definition isEmpty (s : string) : bool :=
  match s with EmptyString => true | _ => false end.

(** * Data model *)

Inductive ExpenseCategory : Type :=
  | Housing | Transportation | Food | Utilities
  | Entertainment | Health | Education | Other.

Inductive ExpenseFrequency : Type := OneTime | Recurring.

Scheme Equality for ExpenseCategory.
Scheme Equality for ExpenseFrequency.

(** The constant [categories]. *)
Definition categories : list ExpenseCategory :=
  [Housing; Transportation; Food; Utilities;
   Entertainment; Health; Education; Other].

(** A union with the string ['All'], as in [ExpenseCategory | 'All']. *)
Inductive OrAll (A : Type) : Type :=
  | All : OrAll A
  | Only : A -> OrAll A.
Arguments All {A}.

Record Expense (num : Type) : Type := {
  id : string;
  label : string;
  amount : num;
  category : ExpenseCategory;
  date : Z;
  frequency : ExpenseFrequency;
  notes : option string
}.

Record Filters : Type := {
  search : string;
  categoryFilter : OrAll ExpenseCategory;     (* filters.category *)
  frequencyFilter : OrAll ExpenseFrequency;   (* filters.frequency *)
  startDate : DateInput;
  endDate : DateInput
}.

(** The initial value of the [filters] state. *)
Definition defaultFilters : Filters :=
  {| search := ""; categoryFilter := All; frequencyFilter := All;
     startDate := None; endDate := None |}.

(** * The filter engine ([filteredExpenses]) *)

Section FilterEngine.

Variable num : Type.

Definition matchesSearch (searchTerm : string) (expense : Expense num) : bool :=
  isEmpty searchTerm
  || includes (toLowerCase (label expense)) searchTerm
  || match notes expense with
     | Some n => includes (toLowerCase n) searchTerm
     | None => false
     end.

Definition matchesCategory (filters : Filters) (expense : Expense num) : bool :=
  match categoryFilter filters with
  | All => true
  | Only c => ExpenseCategory_beq (category expense) c
  end.

Definition matchesFrequency (filters : Filters) (expense : Expense num) : bool :=
  match frequencyFilter filters with
  | All => true
  | Only f => ExpenseFrequency_beq (frequency expense) f
  end.

Definition matchesStart (filters : Filters) (expense : Expense num) : bool :=
  match startDate filters with
  | None => true
  | Some d => newDate d <=? date expense
  end.

Definition matchesEnd (filters : Filters) (expense : Expense num) : bool :=
  match endDate filters with
  | None => true
  | Some d => date expense <=? newDate d
  end.

Definition filteredExpenses
    (expenses : list (Expense num)) (filters : Filters) : list (Expense num) :=
  let searchTerm := toLowerCase (trim (search filters)) in
  filter
    (fun expense =>
       matchesSearch searchTerm expense
       && matchesCategory filters expense
       && matchesFrequency filters expense
       && matchesStart filters expense
       && matchesEnd filters expense)
    expenses.

End FilterEngine.

(** [Subsequence s l]: [s] is obtained from [l] by deleting elements, the
    kept ones staying in their order. *)
Inductive Subsequence (A : Type) : list A -> list A -> Prop :=
  | Subsequence_nil : Subsequence [] []
  | Subsequence_keep : forall x s l, Subsequence s l -> Subsequence (x :: s) (x :: l)
  | Subsequence_drop : forall x s l, Subsequence s l -> Subsequence s (x :: l).

(** * JavaScript [Map]s: association lists in insertion order *)

Section JsMap.

Variables K V : Type.
Variable eqb : K -> K -> bool.

Definition JsMap : Type := list (K * V).

(** [m.get(k)]: [None] stands for [undefined]. *)
Fixpoint map_get (m : JsMap) (k : K) : option V :=
  match m with
  | [] => None
  | (k', v) :: m' => if eqb k' k then Some v else map_get m' k
  end.

(** [m.set(k, v)]: a present key keeps its place, a new one goes last. *)
Fixpoint map_set (m : JsMap) (k : K) (v : V) : JsMap :=
  match m with
  | [] => [(k, v)]
  | (k', v') :: m' =>
      if eqb k' k then (k', v) :: m' else (k', v') :: map_set m' k v
  end.

(** [m.get(k) ?? d]. *)
Definition map_get_or (m : JsMap) (k : K) (d : V) : V :=
  match map_get m k with
  | Some v => v
  | None => d
  end.

Definition map_keys (m : JsMap) : list K := map fst m.

(** [Array.from(m.values())]. *)
Definition map_values (m : JsMap) : list V := map snd m.

End JsMap.

(** * The aggregator *)

(** The four outputs of the aggregator. *)
Record Summary (num : Type) : Type := {
  total : num;
  avgDaily : num;
  avgMonthly : num;
  recurringTotal : num
}.

(** The accumulator of the first [reduce]; an element of [byDate] is the
    pair of an amount and a time value. *)
Record Totals (num : Type) : Type := {
  acc_total : num;
  acc_recurring : num;
  byDate : list (num * Z)
}.

Section Aggregator.

Context {num : Type} {N : JsNumber num}.

(** The instant [new Date()] reads from the clock. *)
Variable now : Z.

Definition totalsStep (acc : Totals num) (expense : Expense num) : Totals num :=
  {| acc_total := nadd (acc_total acc) (amount expense);
     acc_recurring :=
       match frequency expense with
       | Recurring => nadd (acc_recurring acc) (amount expense)
       | OneTime => acc_recurring acc
       end;
     byDate := byDate acc ++ [(amount expense, date expense)] |}.

Definition totals (filteredExpenses : list (Expense num)) : Totals num :=
  fold_left totalsStep filteredExpenses
    {| acc_total := ofZ 0; acc_recurring := ofZ 0; byDate := [] |}.

Definition firstDate (t : Totals num) : Z :=
  match byDate t with
  | item0 :: _ =>
      fold_left
        (fun earliest item => if snd item <? earliest then snd item else earliest)
        (byDate t) (snd item0)
  | [] => now
  end.

Definition lastDate (t : Totals num) : Z :=
  match byDate t with
  | item0 :: _ =>
      fold_left
        (fun latest item => if latest <? snd item then snd item else latest)
        (byDate t) (snd item0)
  | [] => now
  end.

Definition diffDays (t : Totals num) : num :=
  nmax (ofZ 1)
    (nceil (ndiv (nsub (ofZ (lastDate t)) (ofZ (firstDate t))) (ofZ 86400000))).

Definition diffMonths (t : Totals num) : num :=
  nmax (ofZ 1) (nceil (ndiv (diffDays t) (ofZ 30))).

Definition summary (filteredExpenses : list (Expense num)) : Summary num :=
  if (List.length filteredExpenses =? 0)%nat then
    {| total := ofZ 0; avgDaily := ofZ 0; avgMonthly := ofZ 0;
       recurringTotal := ofZ 0 |}
  else
    let t := totals filteredExpenses in
    {| total := acc_total t;
       avgDaily := ndiv (acc_total t) (diffDays t);
       avgMonthly := ndiv (acc_total t) (diffMonths t);
       recurringTotal := acc_recurring t |}.

(** The divisions the aggregator evaluates, in evaluation order, each as
    the pair (dividend, divisor): none on the early return. *)
Definition summaryDivisions (filteredExpenses : list (Expense num)) : list (num * num) :=
  if (List.length filteredExpenses =? 0)%nat then []
  else
    let t := totals filteredExpenses in
    [ (nsub (ofZ (lastDate t)) (ofZ (firstDate t)), ofZ 86400000);
      (diffDays t, ofZ 30);
      (acc_total t, diffDays t);
      (acc_total t, diffMonths t) ].

End Aggregator.

(** * The category bucketizer ([categoryBreakdown]) *)

Record CategoryBucket (num : Type) : Type := {
  bucketCategory : ExpenseCategory;   (* category *)
  bucketAmount : num;                 (* amount *)
  percentage : num;
  width : num
}.

Section CategoryBucketizer.

Context {num : Type} {N : JsNumber num}.

Definition byCategory (filteredExpenses : list (Expense num))
    : JsMap ExpenseCategory num :=
  fold_left
    (fun m expense =>
       map_set ExpenseCategory_beq m (category expense)
         (nadd (map_get_or ExpenseCategory_beq m (category expense) (ofZ 0))
               (amount expense)))
    filteredExpenses [].

(** [Math.max(1, ...values)]. *)
Definition largest (filteredExpenses : list (Expense num)) : num :=
  fold_left nmax (map_values (byCategory filteredExpenses)) (ofZ 1).

Definition categoryBreakdown
    (filteredExpenses : list (Expense num)) (total : num)
    : list (CategoryBucket num) :=
  let m := byCategory filteredExpenses in
  let largest := largest filteredExpenses in
  map
    (fun category =>
       let amount := map_get_or ExpenseCategory_beq m category (ofZ 0) in
       {| bucketCategory := category;
          bucketAmount := amount;
          percentage :=
            if neqb total (ofZ 0) then ofZ 0
            else nmul (ndiv amount total) (ofZ 100);
          width := nmul (ndiv amount largest) (ofZ 100) |})
    categories.

End CategoryBucketizer.

(** * The trend bucketizer ([trend]) *)

(** [Array.prototype.sort(compareFn)], as a stable insertion sort: each
    element in turn is placed before the first element already placed that
    it compares below. *)
Section Sort.

Variable A : Type.
Variable compareFn : A -> A -> Z.

Fixpoint insertSorted (x : A) (sorted : list A) : list A :=
  match sorted with
  | [] => [x]
  | y :: ys => if compareFn x y <? 0 then x :: y :: ys else y :: insertSorted x ys
  end.

Definition sort (l : list A) : list A :=
  fold_left (fun sorted x => insertSorted x sorted) l [].

End Sort.

(** [String(n)] for an integer. *)
Definition stringOfZ (z : Z) : string := NilZero.string_of_int (Z.to_int z).

(** [s.padStart(2, '0')]. *)
Definition padStart2 (s : string) : string :=
  match String.length s with
  | 0%nat => "00" ++ s
  | 1%nat => "0" ++ s
  | _ => s
  end.

Record TrendPoint (num : Type) : Type := {
  key : string;
  trendAmount : num;      (* amount *)
  trendLabel : string     (* label *)
}.

Section TrendBucketizer.

Context {num : Type} {N : JsNumber num}.

(** [LocalTZA(t, true)]: the offset of local time from UTC at the instant
    [t], in milliseconds; it belongs to the host environment. *)
Variable LocalTZA : Z -> Z.

(** The label of a month key,
    [new Date(`${key}-01`).toLocaleString('default', ...)]; it belongs to
    the host's locale. *)
Variable monthLabel : string -> string.

Definition LocalTime (t : Z) : Z := t + LocalTZA t.

Definition getFullYear (t : Z) : Z := year (civilFromDays (Day (LocalTime t))).

Definition getMonth (t : Z) : Z := month (civilFromDays (Day (LocalTime t))) - 1.

Definition monthKey (t : Z) : string :=
  stringOfZ (getFullYear t) ++ "-" ++ padStart2 (stringOfZ (getMonth t + 1)).

Definition byMonth (filteredExpenses : list (Expense num)) : JsMap string num :=
  fold_left
    (fun m expense =>
       let key := monthKey (date expense) in
       map_set String.eqb m key
         (nadd (map_get_or String.eqb m key (ofZ 0)) (amount expense)))
    filteredExpenses [].

Definition compareKeys (a b : TrendPoint num) : Z :=
  if String.ltb (key a) (key b) then -1 else 1.

Definition trend (filteredExpenses : list (Expense num)) : list (TrendPoint num) :=
  sort compareKeys
    (map
       (fun entry =>
          {| key := fst entry;
             trendAmount := snd entry;
             trendLabel := monthLabel (fst entry) |})
       (byMonth filteredExpenses)).

End TrendBucketizer.

(** * The add-expense form ([handleSubmit], [handleAddExpense]) *)

Record Form : Type := {
  formLabel : string;                 (* form.label *)
  formAmount : string;                (* form.amount *)
  formCategory : ExpenseCategory;     (* form.category *)
  formFrequency : ExpenseFrequency;   (* form.frequency *)
  formDate : DateInput;               (* form.date *)
  formNotes : string                  (* form.notes *)
}.

(** The state the handler reads and writes: the store's [expenses] and the
    form component's [open], [form] and [error]. *)
Record Dashboard (num : Type) : Type := {
  expenses : list (Expense num);
  open : bool;
  form : Form;
  error : option string
}.

(** What one run of the handler's body does before it touches the state. *)
Inductive Submission (num : Type) : Type :=
  | Rejected (message : string)          (* setError(message); return *)
  | Raised                               (* toISOString of an invalid date throws *)
  | Accepted (newExpense : Expense num). (* onAdd(newExpense) *)
Arguments Raised {num}.
Arguments Rejected {num} message.

Section AddExpenseForm.

Context {num : Type} {N : JsNumber num}.

(** [Number(s)], the conversion of a string to a number. *)
Variable Number : string -> num.

(** [Number(x.toFixed(2))]: [x] rounded to two fractional digits. *)
Variable toFixed2 : num -> num.

Definition handleAddExpense (expense : Expense num) (prev : list (Expense num))
    : list (Expense num) :=
  expense :: prev.

(** The date field is read by [newDate]: what is said of the new record's
    timestamp is said for a date of a four-digit year ([isIsoDate]). *)
Definition submission (uuid : string) (form : Form) : Submission num :=
  let parsedAmount := Number (formAmount form) in
  if nisNaN parsedAmount || nleb parsedAmount (ofZ 0) then
    Rejected "Please enter a valid amount greater than 0."
  else
    match formDate form with
    | None => Raised
    | Some d =>
        Accepted
          {| id := uuid;
             label :=
               (let l := trim (formLabel form) in
                if isEmpty l then "Untitled expense" else l);
             amount := toFixed2 parsedAmount;
             category := formCategory form;
             frequency := formFrequency form;
             date := newDate d;
             notes :=
               (let n := trim (formNotes form) in
                if isEmpty n then None else Some n) |}
    end.

Definition handleSubmit (uuid : string) (st : Dashboard num) : Dashboard num :=
  match submission uuid (form st) with
  | Rejected message =>
      {| expenses := expenses st; open := open st; form := form st;
         error := Some message |}
  | Raised => st
  | Accepted newExpense =>
      {| expenses := handleAddExpense newExpense (expenses st);
         open := false;
         form :=
           {| formLabel := ""; formAmount := "";
              formCategory := formCategory (form st);
              formFrequency := formFrequency (form st);
              formDate := formDate (form st);
              formNotes := "" |};
         error := None |}
  end.

End AddExpenseForm.

(** ** The two conversions on doubles *)
Module Binary64Form.

Local Open Scope float_scope.

Definition digitValue (c : ascii) : option Z :=
  let n := nat_of_ascii c in
  if ((48 <=? n)%nat && (n <=? 57)%nat)%bool then Some (Z.of_nat (n - 48)) else None.

(** Reads a run of decimal digits: the value accumulated, the number of
    digits read and the rest of the string. *)
Fixpoint readDigits (s : string) (acc : Z) (count : nat) : Z * nat * string :=
  match s with
  | EmptyString => (acc, count, s)
  | String c s' =>
      match digitValue c with
      | Some d => readDigits s' (10 * acc + d)%Z (S count)
      | None => (acc, count, s)
      end
  end.

(** [Number(s)] on the decimal fragment of the grammar: blanks around, an
    optional sign, digits with an optional fraction.  The empty string is
    [0]; what is outside the fragment (exponents, radix prefixes,
    [Infinity]) is not read and gives NaN here. *)
Definition Number (s : string) : float :=
  match trim s with
  | EmptyString => 0
  | String c r as t =>
      let '(neg, body) :=
        if Ascii.eqb c "-" then (true, r)
        else if Ascii.eqb c "+" then (false, r)
        else (false, t) in
      let '(i, ni, rest) := readDigits body 0 0 in
      let '(m, nf, rest') :=
        match rest with
        | String "." r' => readDigits r' i 0
        | _ => (i, 0%nat, rest)
        end in
      if (isEmpty rest' && (0 <? ni + nf)%nat)%bool
      then Binary64.of_ratio neg m (10 ^ Z.of_nat nf)
      else nan
  end.

(** [Number(x.toFixed(2))]: the decimal with two fractional digits nearest
    to the exact value of [x] (of two equally near, the larger in
    magnitude), read back as a double; [toFixed] prints a magnitude of
    [1e21] or more, NaN and the infinities as [String] does, so these come
    back unchanged. *)
Definition toFixed2 (x : float) : float :=
  match Prim2SF x with
  | S754_finite s m e =>
      if 1e21 <=? PrimFloat.abs x then x
      else
        let n :=
          if (0 <=? e)%Z then (Z.pos m * 2 ^ e * 100)%Z
          else ((2 * (Z.pos m * 100) + 2 ^ (- e)) / (2 * 2 ^ (- e)))%Z in
        Binary64.of_ratio s n 100
  | _ => x
  end.

End Binary64Form.

(** * Vocabulary of the specification *)

(** [m] is the least element of [l]. *)
Definition IsMinimum (m : Z) (l : list Z) : Prop :=
  In m l /\ forall x, In x l -> m <= x.

(** [m] is the greatest element of [l]. *)
Definition IsMaximum (m : Z) (l : list Z) : Prop :=
  In m l /\ forall x, In x l -> x <= m.

(** The sum of a sequence of numbers, taken from left to right from [0]. *)
Definition sum {num : Type} {N : JsNumber num} (l : list num) : num :=
  fold_left nadd l (ofZ 0).

(** The records whose frequency is [Recurring]. *)
Definition isRecurring {num : Type} (expense : Expense num) : bool :=
  match frequency expense with Recurring => true | OneTime => false end.

(** The records of the category [c]. *)
Definition inCategory {num : Type} (c : ExpenseCategory) (expense : Expense num) : bool :=
  ExpenseCategory_beq (category expense) c.

(** The sum, over the buckets in their order, of the buckets' amounts. *)
Definition sumOfBuckets {num : Type} {N : JsNumber num}
    (buckets : list (CategoryBucket num)) : num :=
  sum (map (@bucketAmount num) buckets).

(** A sequence of keys in which every key is below, by the comparison
    [a < b] of strings, every key that comes after it. *)
Definition StrictlyAscending (keys : list string) : Prop :=
  StronglySorted (fun a b => String.ltb a b = true) keys.

(** The point [a] has a key below the key of [b]. *)
Definition keyBefore {num : Type} (a b : TrendPoint num) : Prop :=
  String.ltb (key a) (key b) = true.

(** The number of whole days that [ms] milliseconds take up, a started day
    counting as a whole one: the ceiling of [ms / msPerDay]. *)
Definition wholeDays (ms : Z) : Z := - ((- ms) / msPerDay).

(** The instant at which the calendar day [d] starts (UTC). *)
Definition startOfDay (d : CivilDate) : Z := daysFromCivil d * msPerDay.

(** [t] lies within the calendar day [d], after its first instant. *)
Definition LaterWithinDay (t : Z) (d : CivilDate) : Prop :=
  Day t = daysFromCivil d /\ 0 < TimeWithinDay t.

(** * Sample records *)

Module Samples.

Local Open Scope float_scope.
Local Set Warnings "-inexact-float".

(** Noon (UTC) of the day [d] days after 1 January 2024. *)
Definition noon (d : Z) : Z := (1704110400000 + d * msPerDay)%Z.

Definition expense {num : Type} (label : string) (amount : num)
    (category : ExpenseCategory) (frequency : ExpenseFrequency) (date : Z)
    : Expense num :=
  {| id := label; label := label; amount := amount; category := category;
     date := date; frequency := frequency; notes := None |}.

(** Rent today and the groceries of six days ago. *)
Definition rentAndGroceries : list (Expense float) :=
  [ expense "Rent" 1800 Housing Recurring (noon 0);
    expense "Groceries" 240.35 Food Recurring (noon (-6)) ].

(** Three small amounts, the second in another category. *)
Definition threeSmallAmounts : list (Expense float) :=
  [ expense "a" 0.3 Housing OneTime (noon 0);
    expense "b" 0.1 Food OneTime (noon 0);
    expense "c" 0.2 Housing OneTime (noon 0) ].

(** Two finite amounts whose sum exceeds the largest double. *)
Definition twoHugeAmounts : list (Expense float) :=
  [ expense "a" 1e308 Housing OneTime (noon 0);
    expense "b" 1e308 Housing OneTime (noon 0) ].

(** The same three small amounts as rationals. *)
Definition threeSmallRationals : list (Expense Q) :=
  [ expense "a" (3 # 10)%Q Housing OneTime (noon 0);
    expense "b" (1 # 10)%Q Food OneTime (noon 0);
    expense "c" (2 # 10)%Q Housing OneTime (noon 0) ].

(** A filter whose only criterion is the end date 1 January 2024. *)
Definition untilNewYear : Filters :=
  {| search := ""; categoryFilter := All; frequencyFilter := All;
     startDate := None;
     endDate := Some {| year := 2024; month := 1; day := 1 |} |}.

(** A form holding the amount ["-5"]. *)
Definition minusFive : Form :=
  {| formLabel := "Refund"; formAmount := "-5"; formCategory := Housing;
     formFrequency := OneTime;
     formDate := Some {| year := 2024; month := 1; day := 1 |};
     formNotes := "" |}.

End Samples.

(** * The filters panel ([FiltersPanel]): what each control's [onChange] passes on *)

Definition onSearchChange (filters : Filters) (value : string) : Filters :=
  {| search := value;
     categoryFilter := categoryFilter filters;
     frequencyFilter := frequencyFilter filters;
     startDate := startDate filters;
     endDate := endDate filters |}.

Definition onCategoryChange (filters : Filters) (value : OrAll ExpenseCategory) : Filters :=
  {| search := search filters;
     categoryFilter := value;
     frequencyFilter := frequencyFilter filters;
     startDate := startDate filters;
     endDate := endDate filters |}.

Definition onFrequencyChange (filters : Filters) (value : OrAll ExpenseFrequency) : Filters :=
  {| search := search filters;
     categoryFilter := categoryFilter filters;
     frequencyFilter := value;
     startDate := startDate filters;
     endDate := endDate filters |}.

Definition onStartDateChange (filters : Filters) (value : DateInput) : Filters :=
  {| search := search filters;
     categoryFilter := categoryFilter filters;
     frequencyFilter := frequencyFilter filters;
     startDate := value;
     endDate := endDate filters |}.

Definition onEndDateChange (filters : Filters) (value : DateInput) : Filters :=
  {| search := search filters;
     categoryFilter := categoryFilter filters;
     frequencyFilter := frequencyFilter filters;
     startDate := startDate filters;
     endDate := value |}.

(** * The monthly trend card ([TrendInsight]) *)

(** What the card computes: nothing for an empty trend (the card then shows
    its "not enough data" note), and otherwise, for each point in order, the
    width of its bar in percent. *)
Definition TrendInsight {num : Type} {N : JsNumber num}
    (trend : list (TrendPoint num)) : option (list num) :=
  match map (@trendAmount num) trend with
  | [] => None
  | amount0 :: amounts =>
      (* Math.max(...trend.map((item) => item.amount)) *)
      let maxAmount := fold_left nmax amounts amount0 in
      Some (map (fun item => nmul (ndiv (trendAmount item) maxAmount) (ofZ 100)) trend)
  end.

(** * The seed dates ([shiftDays]) *)

Section ShiftDays.

(** [LocalTZA(t, true)] and [LocalTZA(t, false)]: the offset of local time
    from UTC, in milliseconds, at a UTC instant and at a local time; both
    belong to the host environment. *)
Variable LocalTZA : Z -> Z.
Variable LocalTZAofLocal : Z -> Z.

(** [UTC(t)]: the UTC instant of a local time. *)
Definition UTC (t : Z) : Z := t - LocalTZAofLocal t.

(** [date.getDate()]: the day of the month, in local time. *)
Definition getDate (t : Z) : Z := day (civilFromDays (Day (LocalTime LocalTZA t))).

(** [date.setDate(dt)]: the same local year, month and time of day with the
    day of the month [dt], which may lie outside the month. *)
Definition setDate (t : Z) (dt : Z) : Z :=
  let local := LocalTime LocalTZA t in
  let c := civilFromDays (Day local) in
  UTC (daysFromCivil {| year := year c; month := month c; day := dt |} * msPerDay
       + TimeWithinDay local).

(** [shiftDays(delta)] when the clock reads [now]; [None] stands for the
    [RangeError] of [toISOString] on a time value outside the range of
    [Date]. *)
Definition shiftDays (now : Z) (delta : Z) : option Z :=
  let result := setDate now (getDate now + delta) in
  if Z.abs result <=? 8640000000000000 then Some result else None.

End ShiftDays.

(** * More vocabulary *)

(** The string holds nothing but white space of ASCII ([isWhiteSpace]). *)
Fixpoint allWhiteSpace (s : string) : bool :=
  match s with
  | EmptyString => true
  | String c s' => isWhiteSpace c && allWhiteSpace s'
  end.

(** The records whose month key is [k]. *)
Definition inMonth {num : Type} (LocalTZA : Z -> Z) (k : string)
    (expense : Expense num) : bool :=
  String.eqb (monthKey LocalTZA (date expense)) k.

(** The sum, over the points in their order, of the points' amounts. *)
Definition sumOfPoints {num : Type} {N : JsNumber num}
    (points : list (TrendPoint num)) : num :=
  sum (map (@trendAmount num) points).

(** The sum, over the buckets in their order, of the buckets' percentages. *)
Definition sumOfPercentages {num : Type} {N : JsNumber num}
    (buckets : list (CategoryBucket num)) : num :=
  sum (map (@percentage num) buckets).

(** The number of 30-day months that [days] days take up, a started month
    counting as a whole one: the ceiling of [days / 30]. *)
Definition wholeMonths (days : Z) : Z := - ((- days) / 30).

(** Two summaries hold the same four rationals. *)
Definition SameSummary (a b : Summary Q) : Prop :=
  (total a == total b)%Q /\ (avgDaily a == avgDaily b)%Q /\
  (avgMonthly a == avgMonthly b)%Q /\ (recurringTotal a == recurringTotal b)%Q.

(** A zone whose offset from UTC is [tz] at all times. *)
Definition fixedOffset (tz : Z) (t : Z) : Z := tz.

(** All records carry the timestamp [t]. *)
Definition allAt {num : Type} (t : Z) (l : list (Expense num)) : Prop :=
  forall e, In e l -> date e = t.

(** * More sample records *)

Module MoreSamples.

Definition dashboard : Dashboard Q :=
  {| expenses := Samples.threeSmallRationals; open := true;
     form :=
       {| formLabel := "  Tea "; formAmount := "4.50"; formCategory := Food;
          formFrequency := OneTime;
          formDate := Some {| year := 2024; month := 3; day := 5 |};
          formNotes := "   " |};
     error := None |}.

(** The same form with the date field cleared. *)
Definition dashboardWithoutDate : Dashboard Q :=
  {| expenses := Samples.threeSmallRationals; open := true;
     form :=
       {| formLabel := "Tea"; formAmount := "4.50"; formCategory := Food;
          formFrequency := OneTime; formDate := None; formNotes := "" |};
     error := None |}.

(** A conversion that reads every string as 9/2, and the identity for the
    rounding: stand-ins for the two functions of the host. *)
Definition readAsFourAndAHalf (s : string) : Q := (9 # 2)%Q.
Definition keepAsIs (q : Q) : Q := q.

(** Two recurring records and a one-time one, over forty days. *)
Definition fortyDays : list (Expense Q) :=
  [ Samples.expense "Rent" (1800 # 1)%Q Housing Recurring (Samples.noon 0);
    Samples.expense "Gym" (65 # 1)%Q Health Recurring (Samples.noon (-20));
    Samples.expense "Repair" (320 # 1)%Q Education OneTime (Samples.noon (-40)) ].

(** A filter for the single day 1 January 2024. *)
Definition newYearOnly : Filters :=
  {| search := ""; categoryFilter := All; frequencyFilter := All;
     startDate := Some {| year := 2024; month := 1; day := 1 |};
     endDate := Some {| year := 2024; month := 1; day := 1 |} |}.

(** A filter whose end date lies before its start date. *)
Definition inverted : Filters :=
  {| search := ""; categoryFilter := All; frequencyFilter := All;
     startDate := Some {| year := 2024; month := 2; day := 1 |};
     endDate := Some {| year := 2024; month := 1; day := 1 |} |}.

(** The same records with the first two exchanged. *)
Definition gymFirst : list (Expense Q) :=
  [ Samples.expense "Gym" (65 # 1)%Q Health Recurring (Samples.noon (-20));
    Samples.expense "Rent" (1800 # 1)%Q Housing Recurring (Samples.noon 0);
    Samples.expense "Repair" (320 # 1)%Q Education OneTime (Samples.noon (-40)) ].

(** One record stamped at the first instant of 1 January 2024. *)
Definition atMidnight : list (Expense Q) :=
  [ Samples.expense "Tea" (9 # 2)%Q Food OneTime 1704067200000 ].

(** A filter for the single day 5 March 2024. *)
Definition fifthOfMarch : Filters :=
  {| search := ""; categoryFilter := All; frequencyFilter := All;
     startDate := Some {| year := 2024; month := 3; day := 5 |};
     endDate := Some {| year := 2024; month := 3; day := 5 |} |}.

(** Two points of a trend. *)
Definition twoPoints : list (TrendPoint Q) :=
  [ {| key := "2023-12"; trendAmount := (240 # 1)%Q; trendLabel := "Dec 2023" |};
    {| key := "2024-01"; trendAmount := (1800 # 1)%Q; trendLabel := "Jan 2024" |} ].

End MoreSamples.

(** * Properties of the filter engine *)

Section FilterFacts.

Variable num : Type.

Lemma filter_Subsequence (A : Type) (f : A -> bool) (l : list A) :
  Subsequence (filter f l) l.
Proof.
  induction l as [|x l IH]; simpl.
  - constructor.
  - destruct (f x); constructor; exact IH.
Qed.

Lemma filter_all (A : Type) (f : A -> bool) (l : list A) :
  (forall x, In x l -> f x = true) -> filter f l = l.
Proof.
  induction l as [|x l IH]; simpl; intros Hall.
  - reflexivity.
  - rewrite (Hall x (or_introl eq_refl)). f_equal. apply IH.
    intros y Hy. apply Hall. right. exact Hy.
Qed.

Lemma Subsequence_occurs (A : Type) (s l : list A) :
  Subsequence s l ->
  forall s1 y s2, s = s1 ++ y :: s2 -> exists l1 l2, l = l1 ++ y :: l2.
Proof.
  induction 1 as [|z s l Hsub IH|z s l Hsub IH]; intros s1 y s2 Heq.
  - destruct s1; discriminate.
  - destruct s1 as [|w s1]; simpl in Heq; injection Heq as Hz Hs.
    + subst. exists [], l. reflexivity.
    + destruct (IH _ _ _ Hs) as (l1 & l2 & El). subst l.
      exists (z :: l1), l2. reflexivity.
  - destruct (IH _ _ _ Heq) as (l1 & l2 & El). subst l.
    exists (z :: l1), l2. reflexivity.
Qed.

(** A subsequence keeps the relative order of what it retains: two
    elements of the output occur in the input in the order they have in
    the output. *)
Lemma Subsequence_order (A : Type) (s l : list A) :
  Subsequence s l ->
  forall s1 x s2 y s3, s = s1 ++ x :: s2 ++ y :: s3 ->
  exists l1 l2 l3, l = l1 ++ x :: l2 ++ y :: l3.
Proof.
  induction 1 as [|z s l Hsub IH|z s l Hsub IH]; intros s1 x s2 y s3 Heq.
  - destruct s1; discriminate.
  - destruct s1 as [|w s1]; simpl in Heq; injection Heq as Hz Hs.
    + subst z s.
      destruct (Subsequence_occurs Hsub s2 y s3 eq_refl) as (l2 & l3 & El).
      subst l. exists [], l2, l3. reflexivity.
    + subst w. destruct (IH _ _ _ _ _ Hs) as (l1 & l2 & l3 & El). subst l.
      exists (z :: l1), l2, l3. reflexivity.
  - destruct (IH _ _ _ _ _ Heq) as (l1 & l2 & l3 & El). subst l.
    exists (z :: l1), l2, l3. reflexivity.
Qed.

Lemma newDate_startOfDay (d : CivilDate) :
  newDate d = startOfDay d /\
  Day (newDate d) = daysFromCivil d /\ TimeWithinDay (newDate d) = 0.
Proof.
  unfold newDate, startOfDay, Day, TimeWithinDay, msPerDay. repeat split.
  - lia.
  - rewrite Z.mul_comm. apply Z.div_mul. discriminate.
  - rewrite Z.mul_comm. apply Z.mod_mul. discriminate.
Qed.

Lemma LaterWithinDay_after (t : Z) (d : CivilDate) :
  LaterWithinDay t d -> startOfDay d < t.
Proof.
  unfold LaterWithinDay, startOfDay, Day, TimeWithinDay, msPerDay.
  intros [Hday Hlater].
  pose proof (Z.div_mod t 86400000 ltac:(discriminate)) as E.
  rewrite Hday in E. lia.
Qed.

(** C3. With the end date set to [d], a date of a four-digit year (the
    form "YYYY-MM-DD" that [new Date] reads as midnight UTC), the end-bound
    predicate accepts a record exactly when its timestamp is at most the
    first instant of the day [d]; a record timestamped later within that
    day is excluded, by the predicate and so by the filter. *)
Theorem end_bound_is_start_of_day
    (filters : Filters) (d : CivilDate) (expense : Expense num) :
  endDate filters = Some d ->
  isIsoDate d = true ->
  (matchesEnd filters expense = true <-> date expense <= startOfDay d) /\
  (LaterWithinDay (date expense) d ->
     matchesEnd filters expense = false /\
     forall expenses, ~ In expense (filteredExpenses expenses filters)).
Proof.
  intros Hend _.
  assert (Hiff : matchesEnd filters expense = true <-> date expense <= startOfDay d).
  { unfold matchesEnd. rewrite Hend.
    destruct (newDate_startOfDay d) as (-> & _). apply Z.leb_le. }
  split; [exact Hiff|].
  intros Hlater. apply LaterWithinDay_after in Hlater.
  assert (Hno : matchesEnd filters expense = false).
  { apply not_true_is_false. intros E. apply Hiff in E. lia. }
  split; [exact Hno|].
  intros expenses Hin. unfold filteredExpenses in Hin.
  apply filter_In in Hin. destruct Hin as [_ Hpass].
  rewrite Hno in Hpass. rewrite andb_false_r in Hpass. discriminate.
Qed.

(** C4. The output of the filter is a subsequence of its input: the
    retained records, in their relative order. *)
Theorem filteredExpenses_subsequence
    (expenses : list (Expense num)) (filters : Filters) :
  Subsequence (filteredExpenses expenses filters) expenses.
Proof. unfold filteredExpenses. apply filter_Subsequence. Qed.

(** C5. With the default filters (empty search, both selectors on
    ['All'], no date bound) the filter returns its input unchanged. *)
Theorem filteredExpenses_default (expenses : list (Expense num)) :
  filteredExpenses expenses defaultFilters = expenses.
Proof.
  unfold filteredExpenses. apply filter_all. intros expense _. reflexivity.
Qed.

End FilterFacts.

(** * Properties of the aggregator *)

Section AggregatorFacts.

Context {num : Type} {N : JsNumber num}.
Variable now : Z.

(** The first [reduce], field by field. *)
Lemma totals_fold (l : list (Expense num)) (acc : Totals num) :
  fold_left totalsStep l acc =
  {| acc_total := fold_left nadd (map (@amount num) l) (acc_total acc);
     acc_recurring :=
       fold_left nadd (map (@amount num) (filter isRecurring l)) (acc_recurring acc);
     byDate := byDate acc ++ map (fun e => (amount e, date e)) l |}.
Proof.
  revert acc. induction l as [|e l IH]; intros acc; simpl.
  - rewrite app_nil_r. destruct acc; reflexivity.
  - rewrite IH. unfold totalsStep, isRecurring. simpl.
    rewrite <- app_assoc. simpl.
    destruct (frequency e); reflexivity.
Qed.

Lemma totals_total (l : list (Expense num)) :
  acc_total (totals l) = sum (map (@amount num) l).
Proof. unfold totals. rewrite totals_fold. reflexivity. Qed.

Lemma totals_recurring (l : list (Expense num)) :
  acc_recurring (totals l) = sum (map (@amount num) (filter isRecurring l)).
Proof. unfold totals. rewrite totals_fold. reflexivity. Qed.

Lemma totals_byDate (l : list (Expense num)) :
  map snd (byDate (totals l)) = map (@date num) l.
Proof.
  unfold totals. rewrite totals_fold. simpl. rewrite map_map. reflexivity.
Qed.

(** The second [reduce] keeps the least time value met so far. *)
Lemma earliest_fold (items : list (num * Z)) (d : Z) :
  IsMinimum
    (fold_left
       (fun earliest item => if snd item <? earliest then snd item else earliest)
       items d)
    (d :: map snd items).
Proof.
  revert d. induction items as [|item items IH]; intros d; simpl.
  - split; [left; reflexivity|]. intros x [<-|[]]. lia.
  - destruct (IH (if snd item <? d then snd item else d)) as [Hin Hle].
    split.
    + destruct Hin as [Hin|Hin]; [|right; right; exact Hin].
      rewrite <- Hin. destruct (Z.ltb_spec (snd item) d); [right|]; left; reflexivity.
    + intros x Hx.
      assert (Hstep : (if snd item <? d then snd item else d) <= d /\
                      (if snd item <? d then snd item else d) <= snd item)
        by (destruct (Z.ltb_spec (snd item) d); lia).
      pose proof (Hle _ (or_introl eq_refl)) as H0.
      destruct Hx as [<-|[<-|Hx]]; [lia|lia|].
      apply Hle. right. exact Hx.
Qed.

(** The third [reduce] keeps the greatest time value met so far. *)
Lemma latest_fold (items : list (num * Z)) (d : Z) :
  IsMaximum
    (fold_left
       (fun latest item => if latest <? snd item then snd item else latest)
       items d)
    (d :: map snd items).
Proof.
  revert d. induction items as [|item items IH]; intros d; simpl.
  - split; [left; reflexivity|]. intros x [<-|[]]. lia.
  - destruct (IH (if d <? snd item then snd item else d)) as [Hin Hle].
    split.
    + destruct Hin as [Hin|Hin]; [|right; right; exact Hin].
      rewrite <- Hin. destruct (Z.ltb_spec d (snd item)); [right|]; left; reflexivity.
    + intros x Hx.
      assert (Hstep : d <= (if d <? snd item then snd item else d) /\
                      snd item <= (if d <? snd item then snd item else d))
        by (destruct (Z.ltb_spec d (snd item)); lia).
      pose proof (Hle _ (or_introl eq_refl)) as H0.
      destruct Hx as [<-|[<-|Hx]]; [lia|lia|].
      apply Hle. right. exact Hx.
Qed.

Lemma IsMinimum_unique (m m' : Z) (l : list Z) :
  IsMinimum m l -> IsMinimum m' l -> m = m'.
Proof.
  intros [Hin Hle] [Hin' Hle']. apply Z.le_antisymm; auto.
Qed.

Lemma IsMaximum_unique (m m' : Z) (l : list Z) :
  IsMaximum m l -> IsMaximum m' l -> m = m'.
Proof.
  intros [Hin Hle] [Hin' Hle']. apply Z.le_antisymm; auto.
Qed.

Lemma firstDate_minimum (l : list (Expense num)) (lo : Z) :
  IsMinimum lo (map (@date num) l) -> firstDate now (totals l) = lo.
Proof.
  intros Hlo. unfold firstDate.
  pose proof (totals_byDate l) as Hdates.
  destruct (byDate (totals l)) as [|item0 items] eqn:E.
  - rewrite <- Hdates in Hlo. destruct Hlo as [[] _].
  - apply IsMinimum_unique with (l := map (@date num) l); [|exact Hlo].
    rewrite <- Hdates.
    destruct (earliest_fold (item0 :: items) (snd item0)) as [Hin Hle].
    split.
    + destruct Hin as [Hin|Hin]; [left|]; exact Hin.
    + intros x Hx. apply Hle. right. exact Hx.
Qed.

Lemma lastDate_maximum (l : list (Expense num)) (hi : Z) :
  IsMaximum hi (map (@date num) l) -> lastDate now (totals l) = hi.
Proof.
  intros Hhi. unfold lastDate.
  pose proof (totals_byDate l) as Hdates.
  destruct (byDate (totals l)) as [|item0 items] eqn:E.
  - rewrite <- Hdates in Hhi. destruct Hhi as [[] _].
  - apply IsMaximum_unique with (l := map (@date num) l); [|exact Hhi].
    rewrite <- Hdates.
    destruct (latest_fold (item0 :: items) (snd item0)) as [Hin Hle].
    split.
    + destruct Hin as [Hin|Hin]; [left|]; exact Hin.
    + intros x Hx. apply Hle. right. exact Hx.
Qed.

(** C1. On a non-empty filtered set, with [lo] the minimum and [hi] the
    maximum timestamp: spanDays is max(1, ceil((hi - lo) / 86400000)),
    spanMonths is max(1, ceil(spanDays / 30)), and the two averages are
    the total, which is the sum of the amounts, divided by spanDays and
    by spanMonths. *)
Theorem aggregator_spans_and_averages
    (filtered : list (Expense num)) (lo hi : Z) :
  IsMinimum lo (map (@date num) filtered) ->
  IsMaximum hi (map (@date num) filtered) ->
  let spanDays :=
    nmax (ofZ 1) (nceil (ndiv (nsub (ofZ hi) (ofZ lo)) (ofZ msPerDay))) in
  let spanMonths := nmax (ofZ 1) (nceil (ndiv spanDays (ofZ 30))) in
  let total' := sum (map (@amount num) filtered) in
  diffDays now (totals filtered) = spanDays /\
  diffMonths now (totals filtered) = spanMonths /\
  total (summary now filtered) = total' /\
  avgDaily (summary now filtered) = ndiv total' spanDays /\
  avgMonthly (summary now filtered) = ndiv total' spanMonths.
Proof.
  intros Hlo Hhi spanDays spanMonths total'.
  assert (Hdays : diffDays now (totals filtered) = spanDays).
  { unfold diffDays.
    erewrite firstDate_minimum by exact Hlo.
    erewrite lastDate_maximum by exact Hhi. reflexivity. }
  assert (Hmonths : diffMonths now (totals filtered) = spanMonths).
  { unfold diffMonths. rewrite Hdays. reflexivity. }
  assert (Hlen : (List.length filtered =? 0)%nat = false).
  { destruct filtered; [destruct Hlo as [[] _]|reflexivity]. }
  unfold summary. rewrite Hlen. simpl.
  rewrite Hdays, Hmonths, totals_total. repeat split; reflexivity.
Qed.

(** C2. On the empty filtered set the four outputs are the literal [0],
    and the aggregator evaluates no division at all, so none by zero. *)
Theorem aggregator_empty :
  summary now [] =
    {| total := ofZ 0; avgDaily := ofZ 0; avgMonthly := ofZ 0;
       recurringTotal := ofZ 0 |} /\
  summaryDivisions now ([] : list (Expense num)) = [].
Proof. split; reflexivity. Qed.

End AggregatorFacts.

(** * The aggregator in exact arithmetic *)

Section AggregatorExact.

Local Open Scope Q_scope.

Lemma wholeDays_least (ms : Z) :
  (ms <= wholeDays ms * msPerDay)%Z /\
  (forall n : Z, ms <= n * msPerDay -> wholeDays ms <= n)%Z.
Proof.
  unfold wholeDays, msPerDay.
  pose proof (Z.div_mod (- ms) 86400000 ltac:(discriminate)) as E.
  pose proof (Z.mod_pos_bound (- ms) 86400000 ltac:(reflexivity)) as B.
  split; [lia|]. intros n Hn.
  assert (- n <= - ms / 86400000)%Z; [|lia].
  apply Z.div_le_lower_bound; lia.
Qed.

Lemma Qmax_inject_Z (a b : Z) :
  Qmax (inject_Z a) (inject_Z b) == inject_Z (Z.max a b).
Proof.
  destruct (Z.le_ge_cases a b) as [H|H].
  - rewrite Z.max_r by exact H. apply Q.max_r. rewrite <- Zle_Qle. exact H.
  - rewrite Z.max_l by exact H. apply Q.max_l. rewrite <- Zle_Qle. exact H.
Qed.

(** Read in exact arithmetic, the span of C1 is a number of whole days:
    the days from [lo] to [hi], a started day counting as one, and at
    least one. *)
Lemma spanDays_whole_days (lo hi : Z) :
  nmax (ofZ 1) (nceil (ndiv (nsub (ofZ hi) (ofZ lo)) (ofZ msPerDay))) ==
  inject_Z (Z.max 1 (wholeDays (hi - lo))).
Proof.
  cbn [nmax nceil ndiv nsub ofZ Rational.number].
  rewrite <- Qmax_inject_Z.
  assert (E : (inject_Z hi - inject_Z lo) / inject_Z msPerDay == (hi - lo) # 86400000).
  { unfold Qeq, Qdiv, Qminus, Qmult, Qplus, Qopp, Qinv, inject_Z, msPerDay.
    simpl. lia. }
  rewrite E. unfold Qceiling, Qfloor, Qopp, wholeDays. simpl Qnum. simpl Qden.
  reflexivity.
Qed.

(** In exact arithmetic no divisor of the aggregator is zero, whatever the
    filtered set. *)
Lemma summaryDivisions_nonzero (now : Z) (filtered : list (Expense Q)) :
  Forall (fun division => ~ snd division == 0) (summaryDivisions now filtered).
Proof.
  unfold summaryDivisions. destruct (List.length filtered =? 0)%nat; [constructor|].
  assert (Hmax : forall q, ~ nmax (ofZ 1) q == 0).
  { intros q Hq. pose proof (Q.le_max_l (ofZ 1) q) as Hle.
    cbn [nmax ofZ Rational.number] in *. rewrite Hq in Hle. exact (Hle eq_refl). }
  repeat constructor; simpl; try apply Hmax; discriminate.
Qed.

End AggregatorExact.

(** * Properties of maps *)

Section JsMapFacts.

Variables K V : Type.
Variable eqb : K -> K -> bool.
Hypothesis eqb_eq : forall a b, eqb a b = true <-> a = b.

Lemma eqb_refl_true (k : K) : eqb k k = true.
Proof. apply eqb_eq. reflexivity. Qed.

Lemma eqb_neq_false (a b : K) : a <> b -> eqb a b = false.
Proof.
  intros Hne. apply not_true_is_false. intros E. apply Hne, eqb_eq, E.
Qed.

Lemma map_get_set_same (m : JsMap K V) (k : K) (v : V) :
  map_get eqb (map_set eqb m k v) k = Some v.
Proof.
  induction m as [|[k' v'] m IH]; simpl.
  - rewrite eqb_refl_true. reflexivity.
  - destruct (eqb k' k) eqn:E; simpl; rewrite E; [reflexivity|exact IH].
Qed.

Lemma map_get_set_other (m : JsMap K V) (k k' : K) (v : V) :
  k <> k' -> map_get eqb (map_set eqb m k v) k' = map_get eqb m k'.
Proof.
  intros Hne. induction m as [|[k0 v0] m IH]; simpl.
  - rewrite (eqb_neq_false Hne). reflexivity.
  - destruct (eqb k0 k) eqn:E; simpl.
    + apply eqb_eq in E. subst k0. rewrite (eqb_neq_false Hne). reflexivity.
    + rewrite IH. reflexivity.
Qed.

Lemma map_keys_set (m : JsMap K V) (k k' : K) (v : V) :
  In k' (map_keys (map_set eqb m k v)) <-> k' = k \/ In k' (map_keys m).
Proof.
  unfold map_keys. induction m as [|[k0 v0] m IH]; simpl.
  - intuition.
  - destruct (eqb k0 k) eqn:E; simpl.
    + apply eqb_eq in E. subst k0. intuition.
    + rewrite IH. intuition.
Qed.

Lemma map_set_NoDup (m : JsMap K V) (k : K) (v : V) :
  NoDup (map_keys m) -> NoDup (map_keys (map_set eqb m k v)).
Proof.
  unfold map_keys. induction m as [|[k0 v0] m IH]; simpl; intros Hnd.
  - constructor; [intros []|constructor].
  - inversion Hnd as [|? ? Hnotin Hnd']; subst.
    destruct (eqb k0 k) eqn:E; simpl.
    + constructor; assumption.
    + constructor; [|apply IH; exact Hnd'].
      intros Hin. apply (map_keys_set m k k0 v) in Hin.
      destruct Hin as [->|Hin]; [|exact (Hnotin Hin)].
      rewrite eqb_refl_true in E. discriminate.
Qed.

Lemma map_get_None (m : JsMap K V) (k : K) :
  ~ In k (map_keys m) -> map_get eqb m k = None.
Proof.
  unfold map_keys. induction m as [|[k0 v0] m IH]; simpl; intros Hnotin.
  - reflexivity.
  - destruct (eqb k0 k) eqn:E.
    + apply eqb_eq in E. subst k0. exfalso. apply Hnotin. left. reflexivity.
    + apply IH. intros Hin. apply Hnotin. right. exact Hin.
Qed.

Lemma map_get_Some_value (m : JsMap K V) (k : K) (v : V) :
  map_get eqb m k = Some v -> In v (map_values m).
Proof.
  unfold map_values. induction m as [|[k0 v0] m IH]; simpl; intros Hget.
  - discriminate.
  - destruct (eqb k0 k); [injection Hget as ->; left; reflexivity|].
    right. apply IH. exact Hget.
Qed.

Lemma map_get_or_set_same (m : JsMap K V) (k : K) (v d : V) :
  map_get_or eqb (map_set eqb m k v) k d = v.
Proof. unfold map_get_or. rewrite map_get_set_same. reflexivity. Qed.

Lemma map_get_or_set_other (m : JsMap K V) (k k' : K) (v d : V) :
  k <> k' -> map_get_or eqb (map_set eqb m k v) k' d = map_get_or eqb m k' d.
Proof.
  intros Hne. unfold map_get_or. rewrite (map_get_set_other m v Hne). reflexivity.
Qed.

End JsMapFacts.

Lemma ExpenseCategory_beq_eq (a b : ExpenseCategory) :
  ExpenseCategory_beq a b = true <-> a = b.
Proof.
  split.
  - apply internal_ExpenseCategory_dec_bl.
  - apply internal_ExpenseCategory_dec_lb.
Qed.

(** * Properties of the category bucketizer *)

Section CategoryFacts.

Context {num : Type} {N : JsNumber num}.

(** What [forEach] leaves under the key [c]: the amounts of the records
    of category [c], added from left to right to what was there. *)
Lemma byCategory_fold (l : list (Expense num)) (m : JsMap ExpenseCategory num)
    (c : ExpenseCategory) :
  map_get_or ExpenseCategory_beq
    (fold_left
       (fun m expense =>
          map_set ExpenseCategory_beq m (category expense)
            (nadd (map_get_or ExpenseCategory_beq m (category expense) (ofZ 0))
                  (amount expense)))
       l m)
    c (ofZ 0) =
  fold_left nadd (map (@amount num) (filter (inCategory c) l))
    (map_get_or ExpenseCategory_beq m c (ofZ 0)).
Proof.
  revert m. induction l as [|e l IH]; intros m; simpl.
  - reflexivity.
  - rewrite IH. unfold inCategory at 2.
    destruct (ExpenseCategory_beq (category e) c) eqn:E; simpl.
    + apply ExpenseCategory_beq_eq in E. subst c.
      rewrite map_get_or_set_same by exact ExpenseCategory_beq_eq.
      reflexivity.
    + rewrite map_get_or_set_other; [reflexivity|exact ExpenseCategory_beq_eq|].
      intros Heq. apply ExpenseCategory_beq_eq in Heq. congruence.
Qed.

(** A bucket's amount is the sum, from left to right, of the amounts of
    the records of its category. *)
Lemma bucket_amount (l : list (Expense num)) (c : ExpenseCategory) :
  map_get_or ExpenseCategory_beq (byCategory l) c (ofZ 0) =
  sum (map (@amount num) (filter (inCategory c) l)).
Proof. unfold byCategory. rewrite byCategory_fold. reflexivity. Qed.

Lemma categoryBreakdown_categories (l : list (Expense num)) (total' : num) :
  map (@bucketCategory num) (categoryBreakdown l total') = categories.
Proof.
  unfold categoryBreakdown. rewrite map_map. simpl. reflexivity.
Qed.

Lemma categoryBreakdown_amount (l : list (Expense num)) (total' : num)
    (b : CategoryBucket num) :
  In b (categoryBreakdown l total') ->
  bucketAmount b = sum (map (@amount num) (filter (inCategory (bucketCategory b)) l)).
Proof.
  unfold categoryBreakdown. intros Hin. apply in_map_iff in Hin.
  destruct Hin as (c & <- & _). simpl. apply bucket_amount.
Qed.

(** C6. The breakdown holds one bucket per category, in the declared
    order of the enumeration, whatever the records are; a category that
    no record has gets a bucket all the same, with the amount [0]. *)
Theorem categoryBreakdown_one_bucket_per_category
    (filtered : list (Expense num)) (total' : num) :
  map (@bucketCategory num) (categoryBreakdown filtered total') =
    [Housing; Transportation; Food; Utilities;
     Entertainment; Health; Education; Other] /\
  (forall b, In b (categoryBreakdown filtered total') ->
     (forall e, In e filtered -> category e <> bucketCategory b) ->
     bucketAmount b = ofZ 0).
Proof.
  split; [apply categoryBreakdown_categories|].
  intros b Hin Hnone. rewrite (categoryBreakdown_amount Hin).
  replace (filter (inCategory (bucketCategory b)) filtered) with (@nil (Expense num));
    [reflexivity|].
  symmetry. clear Hin. induction filtered as [|e l IH]; simpl; [reflexivity|].
  unfold inCategory at 1.
  destruct (ExpenseCategory_beq (category e) (bucketCategory b)) eqn:E.
  - apply ExpenseCategory_beq_eq in E. exfalso.
    apply (Hnone e (or_introl eq_refl)). exact E.
  - apply IH. intros e' He'. apply Hnone. right. exact He'.
Qed.

End CategoryFacts.

(** * The bucketizer in exact arithmetic and on doubles *)

Section BucketArithmetic.
Local Open Scope Q_scope.

(** The aggregator's total is the sum of the amounts, also on the empty
    set. *)
Lemma summary_total {num : Type} {N : JsNumber num} (now : Z) (l : list (Expense num)) :
  total (summary now l) = sum (map (@amount num) l).
Proof.
  unfold summary. destruct l as [|e l]; [reflexivity|].
  simpl List.length. simpl Nat.eqb. cbv iota. simpl total. apply totals_total.
Qed.

Lemma fold_left_Qplus (l : list Q) (a : Q) :
  fold_left Qplus l a == a + fold_left Qplus l 0.
Proof.
  revert a. induction l as [|x l IH]; intros a; simpl.
  - ring.
  - rewrite IH, (IH (0 + x)). ring.
Qed.

Lemma sum_cons (x : Q) (l : list Q) : sum (x :: l) == x + sum l.
Proof.
  unfold sum. simpl. change (inject_Z 0) with 0. rewrite fold_left_Qplus. ring.
Qed.

Lemma sum_category_cons (c : ExpenseCategory) (e : Expense Q) (l : list (Expense Q)) :
  sum (map (@amount Q) (filter (inCategory c) (e :: l))) ==
  (if inCategory c e then amount e else 0) + sum (map (@amount Q) (filter (inCategory c) l)).
Proof.
  simpl. destruct (inCategory c e); simpl.
  - apply sum_cons.
  - ring.
Qed.

Lemma sum_nil : sum (@nil Q) == 0.
Proof. reflexivity. Qed.

Lemma sum_map_plus (C : Type) (f g k : C -> Q) (cs : list C) :
  (forall c, f c == g c + k c) ->
  sum (map f cs) == sum (map g cs) + sum (map k cs).
Proof.
  intros Hpt. induction cs as [|c cs IH]; simpl map.
  - rewrite sum_nil. ring.
  - rewrite !sum_cons, IH, Hpt. ring.
Qed.

Lemma shares_sum (e : Expense Q) :
  sum (map (fun c => if inCategory c e then amount e else 0) categories) == amount e.
Proof.
  unfold inCategory, categories, sum.
  destruct (category e); simpl; change (inject_Z 0) with 0; ring.
Qed.

(** Every record falls in one category, so the per-category sums add up
    to the sum of all amounts. *)
Lemma buckets_partition (l : list (Expense Q)) :
  sum (map (fun c => sum (map (@amount Q) (filter (inCategory c) l))) categories) ==
  sum (map (@amount Q) l).
Proof.
  induction l as [|e l IH].
  - reflexivity.
  - rewrite (sum_map_plus _ _ _ categories (fun c => sum_category_cons c e l)).
    rewrite shares_sum, IH. simpl map. rewrite sum_cons. reflexivity.
Qed.

(** C7, amended. In exact arithmetic, the buckets' amounts add up to the
    aggregator's total for the same filtered set. *)
Theorem bucket_amounts_sum_to_total_exact (now : Z) (filtered : list (Expense Q)) :
  sumOfBuckets (categoryBreakdown filtered (total (summary now filtered))) ==
  total (summary now filtered).
Proof.
  rewrite summary_total.
  generalize (sum (map (@amount Q) filtered)) at 1. intros total'.
  transitivity
    (sum (map (fun c => sum (map (@amount Q) (filter (inCategory c) filtered)))
              categories));
    [|apply buckets_partition].
  unfold sumOfBuckets, categoryBreakdown. rewrite map_map.
  erewrite map_ext; [reflexivity|].
  intros c. apply bucket_amount.
Qed.

Lemma Qsum_nonneg (l : list Q) : (forall x, In x l -> 0 <= x) -> 0 <= sum l.
Proof.
  induction l as [|x l IH]; intros Hall.
  - rewrite sum_nil. apply Qle_refl.
  - rewrite sum_cons.
    assert (0 <= x) by (apply Hall; left; reflexivity).
    assert (0 <= sum l) by (apply IH; intros y Hy; apply Hall; right; exact Hy).
    replace 0 with (0 + 0) by reflexivity. apply Qplus_le_compat; assumption.
Qed.

Lemma fold_Qmax_bounds (vs : list Q) (init : Q) :
  (init <= fold_left Qmax vs init) /\ 
  (forall v, In v vs -> v <= fold_left Qmax vs init).
Proof.
  revert init. induction vs as [|x vs IH]; intros init; simpl.
  - split; [apply Qle_refl|intros v []].
  - destruct (IH (Qmax init x)) as [Hinit Hvs]. split.
    + eapply Qle_trans; [apply Q.le_max_l|exact Hinit].
    + intros v [<-|Hv].
      * eapply Qle_trans; [apply Q.le_max_r|exact Hinit].
      * apply Hvs. exact Hv.
Qed.

(** C10, amended. In exact arithmetic, when every amount is non-negative,
    every bucket's width lies between 0 and 100: the divisor [largest]
    is at least 1 and at least every bucket's amount. *)
Theorem width_between_0_and_100_exact (filtered : list (Expense Q)) (total' : Q) :
  (forall e, In e filtered -> 0 <= amount e) ->
  forall b, In b (categoryBreakdown filtered total') ->
  (0 <= width b) /\ (width b <= 100).
Proof.
  intros Hpos b Hin.
  pose proof (categoryBreakdown_amount Hin) as Hamount.
  unfold categoryBreakdown in Hin. apply in_map_iff in Hin.
  destruct Hin as (c & <- & _). simpl in *.
  set (a := map_get_or ExpenseCategory_beq (byCategory filtered) c (inject_Z 0)) in *.
  set (L := largest filtered).
  destruct (fold_Qmax_bounds (map_values (byCategory filtered)) 1) as [H1 Hvs].
  assert (HL : 1 <= L) by exact H1.
  assert (Ha0 : 0 <= a).
  { rewrite Hamount. apply Qsum_nonneg. intros x Hx. apply in_map_iff in Hx.
    destruct Hx as (e & <- & He). apply filter_In in He. apply Hpos, He. }
  assert (HaL : a <= L).
  { unfold a, map_get_or.
    destruct (map_get ExpenseCategory_beq (byCategory filtered) c) as [v|] eqn:G.
    - apply Hvs. eapply map_get_Some_value. exact G.
    - eapply Qle_trans; [|exact HL]. discriminate. }
  assert (HLpos : 0 < L) by (eapply Qlt_le_trans; [|exact HL]; reflexivity).
  assert (Hq0 : 0 <= a / L) by (apply Qle_shift_div_l; [exact HLpos|]; rewrite Qmult_0_l; exact Ha0).
  assert (Hq1 : a / L <= 1) by (apply Qle_shift_div_r; [exact HLpos|]; rewrite Qmult_1_l; exact HaL).
  split.
  - apply Qmult_le_0_compat; [exact Hq0|discriminate].
  - change (inject_Z 100) with 100.
    setoid_replace 100 with (1 * 100) at 2 by ring.
    apply Qmult_le_compat_r; [exact Hq1|discriminate].
Qed.

Local Open Scope float_scope.
Local Set Warnings "-inexact-float".

(** C7 as stated fails on doubles. Of three records 0.3 (Housing),
    0.1 (Food), 0.2 (Housing) the total is (0.3 + 0.1) + 0.2 =
    0.6000000000000001, while the buckets hold 0.3 + 0.2 = 0.5 and 0.1,
    which add up to 0.6. *)
Lemma bucket_amounts_sum_differs_on_doubles :
  let filtered := Samples.threeSmallAmounts in
  let total' := total (summary 0 filtered) in
  let buckets := categoryBreakdown filtered total' in
  total' = 0.6000000000000001 /\
  map (@bucketAmount float) buckets = [0.5; 0; 0.1; 0; 0; 0; 0; 0] /\
  sumOfBuckets buckets = 0.6 /\
  neqb (sumOfBuckets buckets) total' = false /\
  sumOfBuckets buckets <> total'.
Proof.
  cbv zeta. repeat split; try (vm_compute; reflexivity).
  intros H. apply (f_equal Prim2SF) in H. vm_compute in H. discriminate.
Qed.

(** On doubles the two need not even be close. Of three records 2^969
    (Food), the largest double (Housing), 2^969 (Food), the total is the
    largest double, each addition of 2^969 being rounded away, while the
    buckets hold 2^970 and the largest double, which add up to Infinity. *)
Lemma bucket_amounts_sum_overflows_on_doubles :
  let filtered :=
    [ Samples.expense "a" 0x1p969 Food OneTime (Samples.noon 0);
      Samples.expense "b" 0x1.fffffffffffffp1023 Housing OneTime (Samples.noon 0);
      Samples.expense "c" 0x1p969 Food OneTime (Samples.noon 0) ] in
  let total' := total (summary 0 filtered) in
  let buckets := categoryBreakdown filtered total' in
  total' = 0x1.fffffffffffffp1023 /\
  map (@bucketAmount float) buckets =
    [0x1.fffffffffffffp1023; 0; 0x1p970; 0; 0; 0; 0; 0] /\
  sumOfBuckets buckets = infinity.
Proof. cbv zeta. repeat split; vm_compute; reflexivity. Qed.

(** C10 as stated fails on doubles. Two records of 1e308 in one
    category satisfy its hypothesis, their sum overflows to Infinity,
    [largest] is Infinity, and the width Infinity / Infinity * 100 is NaN,
    which is neither at least 0 nor at most 100. *)
Lemma width_not_a_number_on_doubles :
  let filtered := Samples.twoHugeAmounts in
  let buckets := categoryBreakdown filtered (total (summary 0 filtered)) in
  forallb (fun e => nleb (ofZ 0) (amount e)) filtered = true /\
  largest filtered = infinity /\
  map (fun b => PrimFloat.is_nan (width b)) buckets =
    [true; false; false; false; false; false; false; false] /\
  map (fun b => nleb (ofZ 0) (width b) && nleb (width b) (ofZ 100)) buckets =
    [false; true; true; true; true; true; true; true].
Proof. cbv zeta. repeat split; vm_compute; reflexivity. Qed.

End BucketArithmetic.

(** * Properties of the trend bucketizer *)

Section SortFacts.

Variable A : Type.
Variable compareFn : A -> A -> Z.

Lemma insertSorted_Permutation (x : A) (s : list A) :
  Permutation (insertSorted compareFn x s) (x :: s).
Proof.
  induction s as [|y s IH]; simpl.
  - apply Permutation_refl.
  - destruct (compareFn x y <? 0).
    + apply Permutation_refl.
    + eapply perm_trans; [apply perm_skip, IH|apply perm_swap].
Qed.

Lemma sort_fold_Permutation (l acc : list A) :
  Permutation (fold_left (fun sorted x => insertSorted compareFn x sorted) l acc)
              (l ++ acc).
Proof.
  revert acc. induction l as [|x l IH]; intros acc; simpl.
  - apply Permutation_refl.
  - eapply perm_trans; [apply IH|].
    eapply perm_trans; [apply Permutation_app_head, insertSorted_Permutation|].
    apply Permutation_sym, Permutation_middle.
Qed.

Lemma sort_Permutation (l : list A) : Permutation (sort compareFn l) l.
Proof.
  unfold sort. eapply perm_trans; [apply sort_fold_Permutation|].
  rewrite app_nil_r. apply Permutation_refl.
Qed.

End SortFacts.

Lemma ltb_lt (a b : string) : String.ltb a b = true <-> String_as_OT.lt a b.
Proof.
  unfold String.ltb. rewrite <- String_as_OT.cmp_lt. unfold String_as_OT.cmp.
  destruct (String.compare a b); split; congruence.
Qed.

Lemma ltb_trans (a b c : string) :
  String.ltb a b = true -> String.ltb b c = true -> String.ltb a c = true.
Proof.
  rewrite !ltb_lt. apply String_as_OT.lt_trans.
Qed.

Lemma ltb_irrefl (a : string) : String.ltb a a = false.
Proof.
  unfold String.ltb.
  replace (String.compare a a) with Eq; [reflexivity|].
  symmetry. apply (proj2 (String_as_OT.cmp_eq a a)). reflexivity.
Qed.

Lemma ltb_total (a b : string) :
  String.ltb a b = false -> a <> b -> String.ltb b a = true.
Proof.
  unfold String.ltb. intros Hab Hne.
  rewrite (String.compare_antisym b a).
  destruct (String.compare a b) eqn:E; simpl.
  - apply String.compare_eq_iff in E. contradiction.
  - discriminate.
  - reflexivity.
Qed.

Section TrendFacts.

Context {num : Type} {N : JsNumber num}.
Variable LocalTZA : Z -> Z.
Variable monthLabel : string -> string.

Lemma insertSorted_HdRel (y x : TrendPoint num) (s : list (TrendPoint num)) :
  keyBefore y x -> HdRel keyBefore y s ->
  HdRel keyBefore y (insertSorted (@compareKeys num) x s).
Proof.
  intros Hyx Hys. destruct s as [|z s]; simpl.
  - constructor. exact Hyx.
  - destruct (compareKeys x z <? 0); constructor.
    + exact Hyx.
    + inversion Hys. assumption.
Qed.

Lemma insertSorted_Sorted (x : TrendPoint num) (s : list (TrendPoint num)) :
  Sorted keyBefore s -> ~ In (key x) (map (@key num) s) ->
  Sorted keyBefore (insertSorted (@compareKeys num) x s).
Proof.
  induction s as [|y s IH]; simpl; intros Hs Hnotin.
  - constructor; constructor.
  - unfold compareKeys at 1.
    destruct (String.ltb (key x) (key y)) eqn:E; simpl.
    + constructor; [exact Hs|]. constructor. exact E.
    + inversion Hs as [|? ? Hs' Hhd]; subst.
      assert (Hyx : keyBefore y x).
      { apply ltb_total; [exact E|]. intros Heq. apply Hnotin. left.
        symmetry. exact Heq. }
      constructor.
      * apply IH; [exact Hs'|]. intros Hin. apply Hnotin. right. exact Hin.
      * apply insertSorted_HdRel; assumption.
Qed.

Lemma sort_fold_Sorted (l acc : list (TrendPoint num)) :
  Sorted keyBefore acc -> NoDup (map (@key num) (l ++ acc)) ->
  Sorted keyBefore
    (fold_left (fun sorted x => insertSorted (@compareKeys num) x sorted) l acc).
Proof.
  revert acc. induction l as [|x l IH]; intros acc Hacc Hnd; simpl.
  - exact Hacc.
  - simpl in Hnd. inversion Hnd as [|? ? Hnotin Hnd']; subst.
    apply IH.
    + apply insertSorted_Sorted; [exact Hacc|].
      intros Hin. apply Hnotin. rewrite map_app. apply in_or_app. right. exact Hin.
    + apply (Permutation_NoDup (l := map (@key num) (x :: l ++ acc))); [|exact Hnd].
      apply Permutation_map.
      eapply perm_trans; [apply Permutation_middle|].
      apply Permutation_app_head, Permutation_sym, insertSorted_Permutation.
Qed.

Lemma byMonth_NoDup (l : list (Expense num)) :
  NoDup (map_keys (byMonth LocalTZA l)).
Proof.
  unfold byMonth.
  assert (G : forall (m : JsMap string num), NoDup (map_keys m) ->
    NoDup (map_keys (fold_left
       (fun m expense =>
          let key := monthKey LocalTZA (date expense) in
          map_set String.eqb m key
            (nadd (map_get_or String.eqb m key (ofZ 0)) (amount expense)))
       l m))).
  { induction l as [|e l IH]; intros m Hm; simpl.
    - exact Hm.
    - apply IH. apply map_set_NoDup; [exact String.eqb_eq|exact Hm]. }
  apply G. constructor.
Qed.

Lemma trend_points_keys (m : JsMap string num) :
  map (@key num)
    (map (fun entry =>
            {| key := fst entry; trendAmount := snd entry;
               trendLabel := monthLabel (fst entry) |}) m) = map_keys m.
Proof. rewrite map_map. reflexivity. Qed.

(** Every record's month has a point in the trend. *)
Lemma trend_covers_months (filtered : list (Expense num)) (e : Expense num) :
  In e filtered ->
  In (monthKey LocalTZA (date e)) (map (@key num) (trend LocalTZA monthLabel filtered)).
Proof.
  intros He.
  apply (Permutation_in (l := map_keys (byMonth LocalTZA filtered))).
  { rewrite <- (trend_points_keys (byMonth LocalTZA filtered)).
    apply Permutation_map, Permutation_sym, sort_Permutation. }
  unfold byMonth.
  assert (G : forall l (m : JsMap string num) k,
    In k (map_keys m) \/ (exists e', In e' l /\ monthKey LocalTZA (date e') = k) ->
    In k (map_keys (fold_left
       (fun m expense =>
          let key := monthKey LocalTZA (date expense) in
          map_set String.eqb m key
            (nadd (map_get_or String.eqb m key (ofZ 0)) (amount expense)))
       l m))).
  { induction l as [|x l IH]; intros m k Hk; simpl.
    - destruct Hk as [Hk|(e' & [] & _)]. exact Hk.
    - apply IH. destruct Hk as [Hk|(e' & [<-|He'] & Hkey)].
      + left. apply map_keys_set; [exact String.eqb_eq|]. right. exact Hk.
      + left. apply map_keys_set; [exact String.eqb_eq|]. left.
        symmetry. exact Hkey.
      + right. exists e'. split; assumption. }
  apply G. right. exists e. split; [exact He|reflexivity].
Qed.

Lemma keyBefore_irrefl (a : TrendPoint num) : ~ keyBefore a a.
Proof. unfold keyBefore. rewrite ltb_irrefl. discriminate. Qed.

Lemma keyBefore_trans (a b c : TrendPoint num) :
  keyBefore a b -> keyBefore b c -> keyBefore a c.
Proof. unfold keyBefore. apply ltb_trans. Qed.

Lemma trend_StronglySorted (filtered : list (Expense num)) :
  StronglySorted keyBefore (trend LocalTZA monthLabel filtered).
Proof.
  apply Sorted_StronglySorted; [intros a b c; apply keyBefore_trans|].
  unfold trend, sort. apply sort_fold_Sorted; [constructor|].
  rewrite app_nil_r, trend_points_keys. apply byMonth_NoDup.
Qed.

Lemma sorted_points_unique (l1 l2 : list (TrendPoint num)) :
  Permutation l1 l2 ->
  StronglySorted keyBefore l1 -> StronglySorted keyBefore l2 -> l1 = l2.
Proof.
  revert l2. induction l1 as [|x l1 IH]; intros l2 Hperm Hs1 Hs2.
  - apply Permutation_nil in Hperm. symmetry. exact Hperm.
  - destruct l2 as [|y l2].
    + apply Permutation_sym, Permutation_nil in Hperm. discriminate.
    + inversion Hs1 as [|? ? Hs1' Hall1]; subst.
      inversion Hs2 as [|? ? Hs2' Hall2]; subst.
      rewrite Forall_forall in Hall1, Hall2.
      assert (Hxy : x = y).
      { assert (Hx : In x (y :: l2))
          by (apply (Permutation_in _ Hperm); left; reflexivity).
        assert (Hy : In y (x :: l1))
          by (apply (Permutation_in _ (Permutation_sym Hperm)); left; reflexivity).
        destruct Hx as [Hx|Hx]; [symmetry; exact Hx|].
        destruct Hy as [Hy|Hy]; [exact Hy|].
        exfalso. apply (keyBefore_irrefl (a := x)).
        eapply keyBefore_trans; [apply Hall1, Hy|apply Hall2, Hx]. }
      subst y. f_equal. apply IH; try assumption.
      eapply Permutation_cons_inv. exact Hperm.
Qed.

(** The trend does not depend on how the engine sorts: an arrangement of
    its points that is ascending by key is the one computed here. *)
Lemma trend_any_sort (filtered : list (Expense num)) (sorted : list (TrendPoint num)) :
  Permutation sorted (trend LocalTZA monthLabel filtered) ->
  StronglySorted keyBefore sorted ->
  sorted = trend LocalTZA monthLabel filtered.
Proof.
  intros Hperm Hsorted. apply sorted_points_unique; [exact Hperm|exact Hsorted|].
  apply trend_StronglySorted.
Qed.

(** C8. The trend's keys are strictly ascending, so no key occurs twice;
    the empty filtered set yields the empty sequence. *)
Theorem trend_strictly_ascending (filtered : list (Expense num)) :
  StrictlyAscending (map (@key num) (trend LocalTZA monthLabel filtered)) /\
  NoDup (map (@key num) (trend LocalTZA monthLabel filtered)) /\
  trend LocalTZA monthLabel ([] : list (Expense num)) = [].
Proof.
  assert (Hnd : NoDup (map (@key num) (trend LocalTZA monthLabel filtered))).
  { apply (Permutation_NoDup (l := map_keys (byMonth LocalTZA filtered)));
      [|apply byMonth_NoDup].
    rewrite <- (trend_points_keys (byMonth LocalTZA filtered)).
    apply Permutation_map, Permutation_sym, sort_Permutation. }
  split; [|split; [exact Hnd|reflexivity]].
  unfold StrictlyAscending.
  induction (trend_StronglySorted filtered) as [|p ps Hps IH Hall]; simpl;
    constructor.
  - apply IH. inversion Hnd. assumption.
  - rewrite Forall_forall in *. intros k Hk. apply in_map_iff in Hk.
    destruct Hk as (q & <- & Hq). apply Hall. exact Hq.
Qed.

End TrendFacts.

(** * Properties of the add-expense form *)

Section FormFacts.

Context {num : Type} {N : JsNumber num}.
Variable Number : string -> num.
Variable toFixed2 : num -> num.

(** C9. When the amount typed in the form converts to NaN or to a number
    that is at most 0, the handler sets the validation message and
    returns: no record is built, and the store's sequence, like the rest
    of the state, is as it was. *)
Theorem invalid_amount_is_rejected (uuid : string) (st : Dashboard num) :
  nisNaN (Number (formAmount (form st))) = true \/
  nleb (Number (formAmount (form st))) (ofZ 0) = true ->
  submission Number toFixed2 uuid (form st) =
    Rejected "Please enter a valid amount greater than 0." /\
  (forall newExpense,
     submission Number toFixed2 uuid (form st) <> Accepted newExpense) /\
  handleSubmit Number toFixed2 uuid st =
    {| expenses := expenses st; open := open st; form := form st;
       error := Some "Please enter a valid amount greater than 0."%string |}.
Proof.
  intros Hbad.
  assert (Hrej : submission Number toFixed2 uuid (form st) =
                 Rejected "Please enter a valid amount greater than 0.").
  { unfold submission.
    destruct Hbad as [E|E]; rewrite E; [|rewrite orb_true_r]; reflexivity. }
  split; [exact Hrej|]. split.
  - intros newExpense. rewrite Hrej. discriminate.
  - unfold handleSubmit. rewrite Hrej. reflexivity.
Qed.

(** A valid amount with a date set adds exactly one record, in front. *)
Lemma valid_amount_is_prepended (uuid : string) (st : Dashboard num) (d : CivilDate) :
  nisNaN (Number (formAmount (form st))) = false ->
  nleb (Number (formAmount (form st))) (ofZ 0) = false ->
  formDate (form st) = Some d ->
  exists newExpense,
    expenses (handleSubmit Number toFixed2 uuid st) = newExpense :: expenses st /\
    amount newExpense = toFixed2 (Number (formAmount (form st))) /\
    date newExpense = newDate d.
Proof.
  intros Hnan Hpos Hdate. unfold handleSubmit, submission.
  rewrite Hnan, Hpos, Hdate. simpl. eexists. repeat split.
Qed.

End FormFacts.

(** * The theorems at concrete inputs *)

Section Instances.

Local Open Scope float_scope.
Local Set Warnings "-inexact-float".

(** C1 at the rent of today and the groceries of six days ago: the span
    is 6 days and 1 month, the total 2040.35 and the daily average
    2040.35 / 6. *)
Lemma aggregator_on_rent_and_groceries :
  let filtered := Samples.rentAndGroceries in
  IsMinimum (Samples.noon (-6)) (map (@date float) filtered) /\
  IsMaximum (Samples.noon 0) (map (@date float) filtered) /\
  diffDays 0 (totals filtered) = 6 /\
  diffMonths 0 (totals filtered) = 1 /\
  total (summary 0 filtered) = 2040.35 /\
  avgDaily (summary 0 filtered) = 2040.35 / 6 /\
  avgMonthly (summary 0 filtered) = 2040.35.
Proof.
  cbv zeta.
  assert (Hlo : IsMinimum (Samples.noon (-6))
                  (map (@date float) Samples.rentAndGroceries)).
  { split; [right; left; reflexivity|].
    intros x [<-|[<-|[]]]; simpl; unfold Samples.noon, msPerDay; lia. }
  assert (Hhi : IsMaximum (Samples.noon 0)
                  (map (@date float) Samples.rentAndGroceries)).
  { split; [left; reflexivity|].
    intros x [<-|[<-|[]]]; simpl; unfold Samples.noon, msPerDay; lia. }
  destruct (@aggregator_spans_and_averages _ _ 0 _ _ _ Hlo Hhi)
    as (Hdays & Hmonths & Htotal & Hdaily & Hmonthly).
  split; [exact Hlo|]. split; [exact Hhi|].
  rewrite Hdays, Hmonths, Htotal, Hdaily, Hmonthly.
  repeat split; vm_compute; reflexivity.
Defined.

(** C3 at the end date 1 January 2024 and a record of noon that day. *)
Lemma end_bound_excludes_noon_of_end_day :
  let d := {| year := 2024; month := 1; day := 1 |} in
  let rent := Samples.expense "Rent" 1800 Housing Recurring (Samples.noon 0) in
  endDate Samples.untilNewYear = Some d /\
  isIsoDate d = true /\
  LaterWithinDay (date rent) d /\
  matchesEnd Samples.untilNewYear rent = false /\
  ~ In rent (filteredExpenses Samples.rentAndGroceries Samples.untilNewYear).
Proof.
  cbv zeta.
  assert (Hlater : LaterWithinDay (Samples.noon 0)
                     {| year := 2024; month := 1; day := 1 |})
    by (split; vm_compute; reflexivity).
  split; [reflexivity|]. split; [reflexivity|]. split; [exact Hlater|].
  destruct (end_bound_is_start_of_day Samples.untilNewYear
              (Samples.expense "Rent" 1800 Housing Recurring (Samples.noon 0))
              eq_refl eq_refl) as [_ Hout].
  destruct (Hout Hlater) as [Hno Hnotin].
  split; [exact Hno|apply Hnotin].
Defined.

(** C9 at the amount ["-5"]. *)
Lemma minus_five_is_rejected :
  let st := {| expenses := Samples.rentAndGroceries; open := true;
               form := Samples.minusFive; error := None |} in
  nleb (Binary64Form.Number (formAmount (form st))) (ofZ 0) = true /\
  expenses (handleSubmit Binary64Form.Number Binary64Form.toFixed2 "uuid" st) =
    Samples.rentAndGroceries /\
  error (handleSubmit Binary64Form.Number Binary64Form.toFixed2 "uuid" st) =
    Some "Please enter a valid amount greater than 0."%string.
Proof.
  cbv zeta.
  assert (Hbad : nleb (Binary64Form.Number "-5") (ofZ 0) = true)
    by (vm_compute; reflexivity).
  split; [exact Hbad|].
  destruct (invalid_amount_is_rejected Binary64Form.Number Binary64Form.toFixed2
              "uuid"
              {| expenses := Samples.rentAndGroceries; open := true;
                 form := Samples.minusFive; error := None |}
              (or_intror Hbad)) as (_ & _ & ->).
  split; reflexivity.
Defined.

(** C10, amended, at three small rational amounts. *)
Lemma widths_of_three_small_rationals :
  (forall e, In e Samples.threeSmallRationals -> (0 <= amount e)%Q) /\
  (forall b,
     In b (categoryBreakdown Samples.threeSmallRationals (6 # 10)%Q) ->
     (0 <= width b)%Q /\ (width b <= 100)%Q).
Proof.
  assert (Hpos : forall e, In e Samples.threeSmallRationals -> (0 <= amount e)%Q).
  { intros e [<-|[<-|[<-|[]]]]; simpl; discriminate. }
  split; [exact Hpos|].
  exact (@width_between_0_and_100_exact Samples.threeSmallRationals (6 # 10)%Q Hpos).
Defined.

End Instances.

(** * Further properties of the filter engine *)

Section FilterMore.

Variable num : Type.

(** X1. The start bound compares days: with the start date set to [d], a
    date of a four-digit year, a record passes it exactly when its (UTC)
    day is the day [d] or a later one, whatever its time of day. *)
Theorem start_bound_is_whole_day
    (filters : Filters) (d : CivilDate) (expense : Expense num) :
  startDate filters = Some d ->
  isIsoDate d = true ->
  (matchesStart filters expense = true <-> daysFromCivil d <= Day (date expense)).
Proof.
  intros Hstart _. unfold matchesStart. rewrite Hstart.
  rewrite Z.leb_le. unfold newDate, Day, msPerDay.
  split; intros H.
  - apply Z.div_le_lower_bound; lia.
  - pose proof (Z.mul_div_le (date expense) 86400000 ltac:(reflexivity)). lia.
Qed.

(** X2. When the end date is an earlier day than the start date, no record
    passes the filter. *)
Theorem filteredExpenses_inverted_range
    (expenses : list (Expense num)) (filters : Filters) (s e : CivilDate) :
  startDate filters = Some s -> endDate filters = Some e ->
  daysFromCivil e < daysFromCivil s ->
  filteredExpenses expenses filters = [].
Proof.
  intros Hs He Hlt. unfold filteredExpenses.
  induction expenses as [|x l IH]; simpl; [reflexivity|].
  rewrite IH.
  assert (E : matchesStart filters x && matchesEnd filters x = false).
  { unfold matchesStart, matchesEnd. rewrite Hs, He.
    apply andb_false_iff.
    destruct (Z.leb_spec (newDate s) (date x)); [|left; reflexivity].
    right. apply Z.leb_gt. unfold newDate, msPerDay in *. lia. }
  rewrite <- andb_assoc, E, andb_false_r. reflexivity.
Qed.

(** X3. When the start date and the end date are the same day [d], a date
    of a four-digit year, the filter keeps only records stamped at the
    first instant (midnight UTC) of that day. *)
Theorem filteredExpenses_single_day
    (expenses : list (Expense num)) (filters : Filters) (d : CivilDate)
    (expense : Expense num) :
  startDate filters = Some d -> endDate filters = Some d ->
  isIsoDate d = true ->
  In expense (filteredExpenses expenses filters) ->
  date expense = startOfDay d.
Proof.
  intros Hs He _ Hin. unfold filteredExpenses in Hin.
  apply filter_In in Hin. destruct Hin as [_ Hpass].
  apply andb_prop in Hpass. destruct Hpass as [Hpass Hend].
  apply andb_prop in Hpass. destruct Hpass as [_ Hstart].
  unfold matchesStart in Hstart. unfold matchesEnd in Hend.
  rewrite Hs in Hstart. rewrite He in Hend.
  apply Z.leb_le in Hstart. apply Z.leb_le in Hend.
  unfold newDate, startOfDay in *. lia.
Qed.

Lemma trimStart_allWhiteSpace (s : string) :
  allWhiteSpace s = true -> trimStart s = EmptyString.
Proof.
  induction s as [|c s IH]; simpl; intros H; [reflexivity|].
  apply andb_prop in H. destruct H as [Hc Hs]. rewrite Hc. apply IH, Hs.
Qed.

(** X4. A search box holding nothing but white space of ASCII (spaces,
    tabs, line breaks) filters like an empty one. *)
Theorem filteredExpenses_blank_search
    (expenses : list (Expense num)) (filters : Filters) (blank : string) :
  allWhiteSpace blank = true ->
  filteredExpenses expenses (onSearchChange filters blank) =
  filteredExpenses expenses (onSearchChange filters "").
Proof.
  intros Hblank. unfold filteredExpenses, onSearchChange. simpl search.
  unfold trim. rewrite (trimStart_allWhiteSpace _ Hblank). reflexivity.
Qed.

Lemma lowerChar_idempotent (c : ascii) : lowerChar (lowerChar c) = lowerChar c.
Proof.
  destruct c as [[] [] [] [] [] [] [] []]; reflexivity.
Qed.

Lemma lowerChar_isWhiteSpace (c : ascii) :
  isWhiteSpace (lowerChar c) = isWhiteSpace c.
Proof.
  destruct c as [[] [] [] [] [] [] [] []]; reflexivity.
Qed.

Lemma toLowerCase_list (s : string) :
  toLowerCase s = string_of_list_ascii (map lowerChar (list_ascii_of_string s)).
Proof.
  induction s as [|c s IH]; simpl; [reflexivity|]. rewrite IH. reflexivity.
Qed.

Lemma toLowerCase_idempotent (s : string) :
  toLowerCase (toLowerCase s) = toLowerCase s.
Proof.
  induction s as [|c s IH]; simpl; [reflexivity|].
  rewrite lowerChar_idempotent, IH. reflexivity.
Qed.

Lemma toLowerCase_reverse (s : string) :
  toLowerCase (reverse s) = reverse (toLowerCase s).
Proof.
  unfold reverse. rewrite !toLowerCase_list.
  rewrite !list_ascii_of_string_of_list_ascii, map_rev. reflexivity.
Qed.

Lemma toLowerCase_trimStart (s : string) :
  toLowerCase (trimStart s) = trimStart (toLowerCase s).
Proof.
  induction s as [|c s IH]; simpl; [reflexivity|].
  rewrite lowerChar_isWhiteSpace.
  destruct (isWhiteSpace c); [exact IH|reflexivity].
Qed.

Lemma toLowerCase_trim (s : string) :
  toLowerCase (trim s) = trim (toLowerCase s).
Proof.
  unfold trim, trimEnd.
  rewrite toLowerCase_reverse, toLowerCase_trimStart, toLowerCase_reverse,
    toLowerCase_trimStart.
  reflexivity.
Qed.

(** X5. The search ignores the case of an ASCII term: typing such a term or
    its lower-case form gives the same filtered list. *)
Theorem filteredExpenses_search_case
    (expenses : list (Expense num)) (filters : Filters) (term : string) :
  isAscii term = true ->
  filteredExpenses expenses (onSearchChange filters (toLowerCase term)) =
  filteredExpenses expenses (onSearchChange filters term).
Proof.
  intros _. unfold filteredExpenses, onSearchChange. simpl search.
  rewrite <- toLowerCase_trim, toLowerCase_idempotent. reflexivity.
Qed.

End FilterMore.

(** * Further properties of the aggregator *)

Section AggregatorMore.

Context {num : Type} {N : JsNumber num}.
Variable now : Z.

(** X6. For every filtered set, the empty one included, [recurringTotal] is
    the sum, from left to right, of the amounts of the records whose
    frequency is Recurring; this holds on doubles as in exact arithmetic. *)
Theorem recurringTotal_is_recurring_sum (filtered : list (Expense num)) :
  recurringTotal (summary now filtered) =
  sum (map (@amount num) (filter isRecurring filtered)).
Proof.
  unfold summary. destruct filtered as [|e l]; [reflexivity|].
  simpl List.length. simpl Nat.eqb. cbv iota. simpl recurringTotal.
  apply totals_recurring.
Qed.

Lemma firstDate_IsMinimum (e : Expense num) (l : list (Expense num)) :
  IsMinimum (firstDate now (totals (e :: l))) (map (@date num) (e :: l)).
Proof.
  unfold firstDate. pose proof (totals_byDate (e :: l)) as Hdates.
  destruct (byDate (totals (e :: l))) as [|item0 items] eqn:E; [discriminate|].
  rewrite <- Hdates.
  destruct (earliest_fold (item0 :: items) (snd item0)) as [Hin Hle].
  split.
  - destruct Hin as [Hin|Hin]; [left|]; exact Hin.
  - intros x Hx. apply Hle. right. exact Hx.
Qed.

Lemma lastDate_IsMaximum (e : Expense num) (l : list (Expense num)) :
  IsMaximum (lastDate now (totals (e :: l))) (map (@date num) (e :: l)).
Proof.
  unfold lastDate. pose proof (totals_byDate (e :: l)) as Hdates.
  destruct (byDate (totals (e :: l))) as [|item0 items] eqn:E; [discriminate|].
  rewrite <- Hdates.
  destruct (latest_fold (item0 :: items) (snd item0)) as [Hin Hle].
  split.
  - destruct Hin as [Hin|Hin]; [left|]; exact Hin.
  - intros x Hx. apply Hle. right. exact Hx.
Qed.

Lemma span_ignores_order_helper (l l' : list (Expense num)) :
  Permutation l l' ->
  diffDays now (totals l) = diffDays now (totals l') /\
  diffMonths now (totals l) = diffMonths now (totals l').
Proof.
  intros Hperm.
  assert (Hdays : diffDays now (totals l) = diffDays now (totals l')).
  { destruct l as [|e l0].
    - apply Permutation_nil in Hperm. subst l'. reflexivity.
    - destruct l' as [|e' l0'];
        [apply Permutation_sym, Permutation_nil in Hperm; discriminate|].
      unfold diffDays.
      assert (Hdates : Permutation (map (@date num) (e :: l0)) (map (@date num) (e' :: l0')))
        by (apply Permutation_map; exact Hperm).
      assert (Hlo : firstDate now (totals (e' :: l0')) = firstDate now (totals (e :: l0))).
      { apply firstDate_minimum.
        destruct (firstDate_IsMinimum e l0) as [Hin Hle]. split.
        - apply (Permutation_in _ Hdates). exact Hin.
        - intros x Hx. apply Hle.
          apply (Permutation_in _ (Permutation_sym Hdates)). exact Hx. }
      assert (Hhi : lastDate now (totals (e' :: l0')) = lastDate now (totals (e :: l0))).
      { apply lastDate_maximum.
        destruct (lastDate_IsMaximum e l0) as [Hin Hle]. split.
        - apply (Permutation_in _ Hdates). exact Hin.
        - intros x Hx. apply Hle.
          apply (Permutation_in _ (Permutation_sym Hdates)). exact Hx. }
      rewrite Hlo, Hhi. reflexivity. }
  split; [exact Hdays|]. unfold diffMonths. rewrite Hdays. reflexivity.
Qed.

End AggregatorMore.

(** * Further properties of the aggregator in exact arithmetic *)

Section AggregatorExactMore.

Local Open Scope Q_scope.
Variable now : Z.

Lemma sum_Permutation (l l' : list Q) : Permutation l l' -> sum l == sum l'.
Proof.
  induction 1 as [|x l l' Hp IH|x y l|l l' l'' Hp1 IH1 Hp2 IH2].
  - reflexivity.
  - rewrite !sum_cons, IH. reflexivity.
  - rewrite !sum_cons. ring.
  - rewrite IH1. exact IH2.
Qed.

Lemma filter_Permutation (A : Type) (f : A -> bool) (l l' : list A) :
  Permutation l l' -> Permutation (filter f l) (filter f l').
Proof.
  induction 1 as [|x l l' Hp IH|x y l|l l' l'' Hp1 IH1 Hp2 IH2]; simpl.
  - constructor.
  - destruct (f x); [constructor|]; exact IH.
  - destruct (f x), (f y); try apply Permutation_refl. apply perm_swap.
  - eapply perm_trans; eassumption.
Qed.

Lemma sum_filter_le (f : Expense Q -> bool) (l : list (Expense Q)) :
  (forall e, In e l -> 0 <= amount e) ->
  sum (map (@amount Q) (filter f l)) <= sum (map (@amount Q) l).
Proof.
  induction l as [|e l IH]; intros Hpos; simpl.
  - apply Qle_refl.
  - assert (He : 0 <= amount e) by (apply Hpos; left; reflexivity).
    assert (Hl : sum (map (@amount Q) (filter f l)) <= sum (map (@amount Q) l))
      by (apply IH; intros x Hx; apply Hpos; right; exact Hx).
    destruct (f e); simpl; rewrite ?sum_cons.
    + apply Qplus_le_compat; [apply Qle_refl|exact Hl].
    + rewrite <- (Qplus_0_l (sum (map (@amount Q) (filter f l)))).
      apply Qplus_le_compat; assumption.
Qed.

(** X7. In exact arithmetic, when no amount is negative, the recurring
    total is at most the total. *)
Theorem recurringTotal_at_most_total (filtered : list (Expense Q)) :
  (forall e, In e filtered -> 0 <= amount e) ->
  recurringTotal (summary now filtered) <= total (summary now filtered).
Proof.
  intros Hpos. rewrite summary_total.
  unfold summary. destruct filtered as [|e l]; [apply Qle_refl|].
  simpl List.length. simpl Nat.eqb. cbv iota. simpl recurringTotal.
  rewrite totals_recurring. apply sum_filter_le. exact Hpos.
Qed.

(** The two spans are whole numbers, each at least one, and the months are
    the days counted in thirties. *)
Lemma spans_whole (t : Totals Q) :
  exists D : Z,
    (1 <= D)%Z /\ diffDays now t == inject_Z D /\
    diffMonths now t == inject_Z (Z.max 1 (wholeMonths D)).
Proof.
  set (c := Qceiling ((inject_Z (lastDate now t) - inject_Z (firstDate now t))
                       / inject_Z 86400000)).
  assert (Hdays : diffDays now t == inject_Z (Z.max 1 c)).
  { unfold diffDays. cbn [nmax nceil ndiv nsub ofZ Rational.number].
    fold c. apply Qmax_inject_Z. }
  exists (Z.max 1 c). split; [lia|]. split; [exact Hdays|].
  unfold diffMonths. cbn [nmax nceil ndiv ofZ Rational.number].
  rewrite <- Qmax_inject_Z.
  assert (E : Qceiling (diffDays now t / inject_Z 30) = wholeMonths (Z.max 1 c)).
  { rewrite Hdays.
    assert (E' : inject_Z (Z.max 1 c) / inject_Z 30 == Z.max 1 c # 30).
    { unfold Qeq, Qdiv, Qmult, Qinv, inject_Z. simpl. lia. }
    rewrite E'. unfold Qceiling, Qfloor, Qopp, wholeMonths. simpl Qnum. simpl Qden.
    reflexivity. }
  rewrite E. reflexivity.
Qed.

Lemma wholeMonths_bounds (D : Z) :
  (1 <= D -> 1 <= wholeMonths D <= D)%Z.
Proof.
  intros HD. unfold wholeMonths.
  pose proof (Z.div_mod (- D) 30 ltac:(discriminate)) as E.
  pose proof (Z.mod_pos_bound (- D) 30 ltac:(reflexivity)) as B.
  lia.
Qed.

(** X8. In exact arithmetic the two spans are whole numbers: [diffDays]
    is the number of days from the earliest to the latest record, a
    started day counting as one, and [diffMonths] is that number counted
    in thirties, a started thirty counting as one; each is at least 1. *)
Theorem spans_are_whole_days_and_months
    (filtered : list (Expense Q)) (lo hi : Z) :
  IsMinimum lo (map (@date Q) filtered) ->
  IsMaximum hi (map (@date Q) filtered) ->
  (diffDays now (totals filtered) == inject_Z (Z.max 1 (wholeDays (hi - lo)))) /\
  (diffMonths now (totals filtered) ==
     inject_Z (Z.max 1 (wholeMonths (Z.max 1 (wholeDays (hi - lo)))))).
Proof.
  intros Hlo Hhi.
  assert (Hdays : diffDays now (totals filtered) ==
                  inject_Z (Z.max 1 (wholeDays (hi - lo)))).
  { unfold diffDays.
    erewrite firstDate_minimum by exact Hlo.
    erewrite lastDate_maximum by exact Hhi.
    apply spanDays_whole_days. }
  split; [exact Hdays|].
  destruct (spans_whole (totals filtered)) as (D & HD & HdaysD & Hmonths).
  assert (HD' : D = Z.max 1 (wholeDays (hi - lo))).
  { apply inject_Z_injective. rewrite <- HdaysD. exact Hdays. }
  rewrite Hmonths, HD'. reflexivity.
Qed.

(** X9. In exact arithmetic, when no amount is negative, the daily
    average is at most the monthly average. *)
Theorem avgDaily_at_most_avgMonthly (filtered : list (Expense Q)) :
  (forall e, In e filtered -> 0 <= amount e) ->
  avgDaily (summary now filtered) <= avgMonthly (summary now filtered).
Proof.
  intros Hpos. unfold summary.
  destruct filtered as [|e l]; [apply Qle_refl|].
  simpl List.length. simpl Nat.eqb. cbv iota. simpl avgDaily. simpl avgMonthly.
  set (t := totals (e :: l)).
  assert (Htotal : 0 <= acc_total t).
  { unfold t. rewrite totals_total. apply Qsum_nonneg. intros x Hx.
    apply in_map_iff in Hx. destruct Hx as (e' & <- & He'). apply Hpos, He'. }
  destruct (spans_whole t) as (D & HD & Hdays & Hmonths).
  change (acc_total t / diffDays now t <= acc_total t / diffMonths now t).
  rewrite Hdays, Hmonths.
  pose proof (wholeMonths_bounds HD) as [HM1 HM2].
  rewrite Z.max_r by lia.
  assert (HMpos : 0 < inject_Z (wholeMonths D)).
  { replace 0 with (inject_Z 0) by reflexivity. rewrite <- Zlt_Qlt. lia. }
  assert (HDpos : 0 < inject_Z D).
  { replace 0 with (inject_Z 0) by reflexivity. rewrite <- Zlt_Qlt. lia. }
  apply Qle_shift_div_l; [exact HMpos|].
  unfold Qdiv. rewrite <- Qmult_assoc.
  rewrite (Qmult_comm (/ inject_Z D)).
  rewrite Qmult_assoc.
  apply Qle_shift_div_r; [exact HDpos|].
  rewrite (Qmult_comm (acc_total t) (inject_Z (wholeMonths D))).
  rewrite (Qmult_comm (acc_total t) (inject_Z D)).
  apply Qmult_le_compat_r; [|exact Htotal].
  rewrite <- Zle_Qle. exact HM2.
Qed.

Lemma summary_total_Permutation (l l' : list (Expense Q)) :
  Permutation l l' ->
  sum (map (@amount Q) l) == sum (map (@amount Q) l').
Proof. intros Hp. apply sum_Permutation, Permutation_map, Hp. Qed.

(** X10. In exact arithmetic the four outputs do not depend on the order
    of the records: two arrangements of the same records have the same
    total, recurring total and averages. *)
Theorem summary_ignores_order (l l' : list (Expense Q)) :
  Permutation l l' -> SameSummary (summary now l) (summary now l').
Proof.
  intros Hperm.
  assert (Htotal : total (summary now l) == total (summary now l')).
  { rewrite !summary_total. apply summary_total_Permutation, Hperm. }
  assert (Hrec : recurringTotal (summary now l) == recurringTotal (summary now l')).
  { assert (R : forall k : list (Expense Q),
              recurringTotal (summary now k) =
              sum (map (@amount Q) (filter isRecurring k))).
    { intros k. unfold summary. destruct k as [|e k]; [reflexivity|].
      simpl List.length. simpl Nat.eqb. cbv iota. simpl recurringTotal.
      apply totals_recurring. }
    rewrite !R. apply sum_Permutation, Permutation_map, filter_Permutation, Hperm. }
  destruct (span_ignores_order_helper now Hperm) as [Hdays Hmonths].
  unfold SameSummary. split; [exact Htotal|]. split; [|split; [|exact Hrec]].
  - destruct l as [|e l0].
    + apply Permutation_nil in Hperm. subst l'. reflexivity.
    + destruct l' as [|e' l0'];
        [apply Permutation_sym, Permutation_nil in Hperm; discriminate|].
      rewrite !summary_total in Htotal.
      unfold summary. simpl List.length. simpl Nat.eqb. cbv iota.
      simpl avgDaily.
      change (acc_total (totals (e :: l0)) / diffDays now (totals (e :: l0)) ==
              acc_total (totals (e' :: l0')) / diffDays now (totals (e' :: l0'))).
      rewrite Hdays, !totals_total, Htotal. reflexivity.
  - destruct l as [|e l0].
    + apply Permutation_nil in Hperm. subst l'. reflexivity.
    + destruct l' as [|e' l0'];
        [apply Permutation_sym, Permutation_nil in Hperm; discriminate|].
      rewrite !summary_total in Htotal.
      unfold summary. simpl List.length. simpl Nat.eqb. cbv iota.
      simpl avgMonthly.
      change (acc_total (totals (e :: l0)) / diffMonths now (totals (e :: l0)) ==
              acc_total (totals (e' :: l0')) / diffMonths now (totals (e' :: l0'))).
      rewrite Hmonths, !totals_total, Htotal. reflexivity.
Qed.

(** X11. In exact arithmetic, when all records carry one timestamp (a
    single record, for one), both spans are 1 and both averages are the
    total. *)
Theorem one_instant_averages (filtered : list (Expense Q)) (t : Z) :
  filtered <> [] -> allAt t filtered ->
  (diffDays now (totals filtered) == 1) /\
  (diffMonths now (totals filtered) == 1) /\
  (avgDaily (summary now filtered) == total (summary now filtered)) /\
  (avgMonthly (summary now filtered) == total (summary now filtered)).
Proof.
  intros Hne Hall.
  destruct filtered as [|e l]; [contradiction|].
  assert (Hlo : IsMinimum t (map (@date Q) (e :: l))).
  { split.
    - left. apply Hall. left. reflexivity.
    - intros x Hx. apply in_map_iff in Hx. destruct Hx as (e' & <- & He').
      rewrite (Hall e' He'). lia. }
  assert (Hhi : IsMaximum t (map (@date Q) (e :: l))).
  { split.
    - left. apply Hall. left. reflexivity.
    - intros x Hx. apply in_map_iff in Hx. destruct Hx as (e' & <- & He').
      rewrite (Hall e' He'). lia. }
  assert (Hdays : diffDays now (totals (e :: l)) == 1).
  { unfold diffDays.
    erewrite firstDate_minimum by exact Hlo.
    erewrite lastDate_maximum by exact Hhi.
    rewrite spanDays_whole_days. rewrite Z.sub_diag. reflexivity. }
  assert (Hmonths : diffMonths now (totals (e :: l)) == 1).
  { destruct (spans_whole (totals (e :: l))) as (D & HD & HdaysD & HmonthsD).
    assert (HD1 : D = 1%Z).
    { apply inject_Z_injective. rewrite <- HdaysD. exact Hdays. }
    rewrite HmonthsD, HD1. reflexivity. }
  split; [exact Hdays|]. split; [exact Hmonths|].
  unfold summary. simpl List.length. simpl Nat.eqb. cbv iota.
  simpl avgDaily. simpl avgMonthly. simpl total.
  split.
  - change (acc_total (totals (e :: l)) / diffDays now (totals (e :: l)) ==
            acc_total (totals (e :: l))).
    rewrite Hdays. unfold Qdiv. change (/ 1) with 1. apply Qmult_1_r.
  - change (acc_total (totals (e :: l)) / diffMonths now (totals (e :: l)) ==
            acc_total (totals (e :: l))).
    rewrite Hmonths. unfold Qdiv. change (/ 1) with 1. apply Qmult_1_r.
Qed.

End AggregatorExactMore.



(** * Further properties of maps *)

Section JsMapMore.

Variables K V : Type.
Variable eqb : K -> K -> bool.
Hypothesis eqb_eq : forall a b, eqb a b = true <-> a = b.

Lemma map_get_In (m : JsMap K V) (k : K) (v : V) :
  NoDup (map_keys m) -> In (k, v) m -> map_get eqb m k = Some v.
Proof.
  unfold map_keys. induction m as [|[k0 v0] m IH]; simpl; intros Hnd Hin.
  - contradiction.
  - inversion Hnd as [|? ? Hnotin Hnd']; subst.
    destruct Hin as [Heq|Hin].
    + injection Heq as -> ->. rewrite (eqb_refl_true eqb eqb_eq). reflexivity.
    + destruct (eqb k0 k) eqn:E.
      * apply eqb_eq in E. subst k0. exfalso. apply Hnotin.
        apply in_map_iff. exists (k, v). split; [reflexivity|exact Hin].
      * apply IH; assumption.
Qed.

Lemma map_get_Some_In (m : JsMap K V) (k : K) (v : V) :
  map_get eqb m k = Some v -> In (k, v) m.
Proof.
  induction m as [|[k0 v0] m IH]; simpl; intros Hget.
  - discriminate.
  - destruct (eqb k0 k) eqn:E.
    + apply eqb_eq in E. injection Hget as ->. subst k0. left. reflexivity.
    + right. apply IH. exact Hget.
Qed.

Lemma map_set_length (m : JsMap K V) (k : K) (v : V) :
  (List.length (map_set eqb m k v) <= S (List.length m))%nat.
Proof.
  induction m as [|[k0 v0] m IH]; simpl.
  - lia.
  - destruct (eqb k0 k); simpl; lia.
Qed.

End JsMapMore.

(** * Further properties of the category bucketizer *)

Section CategoryMore.

Context {num : Type} {N : JsNumber num}.

(** X12. Whatever the total passed in, the amounts of the eight buckets
    are, category by category, the sums from left to right of the amounts
    of the records of that category; this holds on doubles as in exact
    arithmetic. *)
Theorem bucket_amounts_are_category_sums
    (filtered : list (Expense num)) (total' : num) :
  map (@bucketAmount num) (categoryBreakdown filtered total') =
  map (fun c => sum (map (@amount num) (filter (inCategory c) filtered))) categories.
Proof.
  unfold categoryBreakdown. rewrite map_map. apply map_ext.
  intros c. apply bucket_amount.
Qed.

Lemma byCategory_NoDup (l : list (Expense num)) : NoDup (map_keys (byCategory l)).
Proof.
  unfold byCategory.
  assert (G : forall (m : JsMap ExpenseCategory num), NoDup (map_keys m) ->
    NoDup (map_keys (fold_left
       (fun m expense =>
          map_set ExpenseCategory_beq m (category expense)
            (nadd (map_get_or ExpenseCategory_beq m (category expense) (ofZ 0))
                  (amount expense)))
       l m))).
  { induction l as [|e l IH]; intros m Hm; simpl.
    - exact Hm.
    - apply IH. apply map_set_NoDup; [exact ExpenseCategory_beq_eq|exact Hm]. }
  apply G. constructor.
Qed.

Lemma categories_complete (c : ExpenseCategory) : In c categories.
Proof. destruct c; simpl; tauto. Qed.

End CategoryMore.

Section CategoryExactMore.

Local Open Scope Q_scope.

Lemma sum_map_scale (C : Type) (f : C -> Q) (k : Q) (cs : list C) :
  sum (map (fun c => f c * k) cs) == sum (map f cs) * k.
Proof.
  induction cs as [|c cs IH]; simpl map.
  - rewrite !sum_nil. ring.
  - rewrite !sum_cons, IH. ring.
Qed.

(** X13. In exact arithmetic, when the total of the filtered set is not
    zero, the percentages of the eight buckets add up to 100; when it is
    zero, every percentage is 0. *)
Theorem percentages_sum_to_100 (now : Z) (filtered : list (Expense Q)) :
  let total' := total (summary now filtered) in
  let buckets := categoryBreakdown filtered total' in
  (~ total' == 0 -> sumOfPercentages buckets == 100) /\
  (total' == 0 -> forall b, In b buckets -> percentage b == 0).
Proof.
  cbv zeta. split.
  - intros Hnz.
    assert (Hb : Qeq_bool (total (summary now filtered)) 0 = false).
    { apply not_true_is_false. intros E. apply Qeq_bool_iff in E. exact (Hnz E). }
    unfold sumOfPercentages, categoryBreakdown. rewrite map_map. simpl percentage.
    change (inject_Z 100) with 100. change (inject_Z 0) with 0.
    rewrite Hb.
    assert (E : forall c,
      map_get_or ExpenseCategory_beq (byCategory filtered) c 0
        / total (summary now filtered) * 100 ==
      sum (map (@amount Q) (filter (inCategory c) filtered))
        * (/ total (summary now filtered) * 100)).
    { intros c. rewrite <- (bucket_amount filtered c). unfold Qdiv.
      change (ofZ 0) with 0. ring. }
    transitivity
      (sum (map (fun c => sum (map (@amount Q) (filter (inCategory c) filtered))
                          * (/ total (summary now filtered) * 100)) categories)).
    { clear - E. induction categories as [|c cs IH]; simpl map; [reflexivity|].
      rewrite !sum_cons, IH, E. reflexivity. }
    rewrite sum_map_scale, buckets_partition, <- summary_total with (now := now).
    field. exact Hnz.
  - intros Hz b Hin.
    unfold categoryBreakdown in Hin. apply in_map_iff in Hin.
    destruct Hin as (c & <- & _). simpl percentage.
    change (inject_Z 0) with 0.
    apply Qeq_bool_iff in Hz. rewrite Hz. reflexivity.
Qed.

Lemma Qmax_cases (a b : Q) : Qmax a b = a \/ Qmax a b = b.
Proof.
  unfold Qmax, GenericMinMax.gmax. destruct (a ?= b); auto.
Qed.

Lemma fold_Qmax_attained (vs : list Q) (init : Q) :
  fold_left Qmax vs init = init \/ In (fold_left Qmax vs init) vs.
Proof.
  revert init. induction vs as [|x vs IH]; intros init; simpl.
  - left. reflexivity.
  - destruct (IH (Qmax init x)) as [E|Hin]; [|right; right; exact Hin].
    rewrite E. destruct (Qmax_cases init x) as [->| ->]; auto.
Qed.

(** A value of the map is the amount of the bucket of its key. *)
Lemma value_is_bucket_amount (filtered : list (Expense Q)) (total' v : Q) :
  In v (map_values (byCategory filtered)) ->
  exists b, In b (categoryBreakdown filtered total') /\ bucketAmount b = v /\
            width b = v / largest filtered * 100.
Proof.
  intros Hv. unfold map_values in Hv. apply in_map_iff in Hv.
  destruct Hv as ([k v'] & Hsnd & Hin). simpl in Hsnd. subst v'.
  pose proof (map_get_In ExpenseCategory_beq ExpenseCategory_beq_eq
                (byCategory filtered) k v (byCategory_NoDup filtered) Hin) as Hget.
  eexists. split.
  - unfold categoryBreakdown. apply in_map. apply categories_complete with (c := k).
  - simpl. unfold map_get_or. rewrite Hget. split; reflexivity.
Qed.

Lemma bucket_amount_cases (filtered : list (Expense Q)) (total' : Q)
    (b : CategoryBucket Q) :
  In b (categoryBreakdown filtered total') ->
  width b = bucketAmount b / largest filtered * 100 /\
  (bucketAmount b = 0 \/ In (bucketAmount b) (map_values (byCategory filtered))).
Proof.
  intros Hin. unfold categoryBreakdown in Hin. apply in_map_iff in Hin.
  destruct Hin as (c & <- & _). simpl. split; [reflexivity|].
  unfold map_get_or.
  destruct (map_get ExpenseCategory_beq (byCategory filtered) c) as [v|] eqn:G.
  - right. eapply map_get_Some_value. exact G.
  - left. reflexivity.
Qed.

(** X14. In exact arithmetic the bars are scaled to the largest bucket, but
    never by less than 1: as soon as some bucket's amount reaches 1, some
    bucket has the width 100; and while every bucket's amount is at most
    1, each width is just the amount times 100. *)
Theorem widths_are_scaled_to_the_largest
    (filtered : list (Expense Q)) (total' : Q) :
  let buckets := categoryBreakdown filtered total' in
  ((exists b, In b buckets /\ 1 <= bucketAmount b) ->
   exists b, In b buckets /\ width b == 100) /\
  ((forall b, In b buckets -> bucketAmount b <= 1) ->
   forall b, In b buckets -> width b == bucketAmount b * 100).
Proof.
  cbv zeta.
  destruct (fold_Qmax_bounds (map_values (byCategory filtered)) 1) as [H1 Hvs].
  fold (inject_Z 1) in H1, Hvs.
  change (fold_left Qmax (map_values (byCategory filtered)) (inject_Z 1))
    with (largest filtered) in H1, Hvs.
  split.
  - intros (b & Hb & Hge).
    destruct (fold_Qmax_attained (map_values (byCategory filtered)) 1) as [E|Hin].
    + change (fold_left Qmax (map_values (byCategory filtered)) 1)
        with (largest filtered) in E.
      exists b. split; [exact Hb|].
      destruct (bucket_amount_cases Hb) as [-> [Hz|Hv]].
      * rewrite Hz in Hge. exfalso. exact (Hge eq_refl).
      * assert (Hle : bucketAmount b <= 1) by (rewrite <- E; apply Hvs, Hv).
        rewrite E. assert (Hone : bucketAmount b == 1) by (apply Qle_antisym; assumption).
        rewrite Hone. reflexivity.
    + change (fold_left Qmax (map_values (byCategory filtered)) 1)
        with (largest filtered) in Hin.
      destruct (value_is_bucket_amount filtered total' _ Hin) as (b' & Hb' & _ & Hw).
      exists b'. split; [exact Hb'|]. rewrite Hw. field.
      intros Hz. rewrite Hz in H1. exact (H1 eq_refl).
  - intros Hsmall b Hb.
    assert (HL : largest filtered == 1).
    { apply Qle_antisym; [|exact H1].
      destruct (fold_Qmax_attained (map_values (byCategory filtered)) 1) as [E|Hin].
      - change (fold_left Qmax (map_values (byCategory filtered)) 1)
          with (largest filtered) in E. rewrite E. apply Qle_refl.
      - change (fold_left Qmax (map_values (byCategory filtered)) 1)
          with (largest filtered) in Hin.
        destruct (value_is_bucket_amount filtered total' _ Hin) as (b' & Hb' & Ha & _).
        rewrite <- Ha. apply Hsmall, Hb'. }
    destruct (bucket_amount_cases Hb) as [-> _].
    rewrite HL. field.
Qed.

End CategoryExactMore.

(** * Further properties of the trend bucketizer *)

Section TrendMore.

Context {num : Type} {N : JsNumber num}.
Variable LocalTZA : Z -> Z.
Variable monthLabel : string -> string.

Lemma byMonth_fold (l : list (Expense num)) (m : JsMap string num) (k : string) :
  map_get_or String.eqb
    (fold_left
       (fun m expense =>
          let key := monthKey LocalTZA (date expense) in
          map_set String.eqb m key
            (nadd (map_get_or String.eqb m key (ofZ 0)) (amount expense)))
       l m)
    k (ofZ 0) =
  fold_left nadd (map (@amount num) (filter (inMonth LocalTZA k) l))
    (map_get_or String.eqb m k (ofZ 0)).
Proof.
  revert m. induction l as [|e l IH]; intros m; simpl.
  - reflexivity.
  - rewrite IH. unfold inMonth at 2.
    destruct (String.eqb (monthKey LocalTZA (date e)) k) eqn:E; simpl.
    + apply String.eqb_eq in E. subst k.
      rewrite map_get_or_set_same by exact String.eqb_eq. reflexivity.
    + rewrite map_get_or_set_other; [reflexivity|exact String.eqb_eq|].
      intros Heq. apply String.eqb_eq in Heq. congruence.
Qed.

Lemma month_amount (l : list (Expense num)) (k : string) :
  map_get_or String.eqb (byMonth LocalTZA l) k (ofZ 0) =
  sum (map (@amount num) (filter (inMonth LocalTZA k) l)).
Proof. unfold byMonth. rewrite byMonth_fold. reflexivity. Qed.

Lemma byMonth_keys (l : list (Expense num)) (k : string) :
  In k (map_keys (byMonth LocalTZA l)) ->
  exists e, In e l /\ monthKey LocalTZA (date e) = k.
Proof.
  unfold byMonth.
  assert (G : forall l (m : JsMap string num),
    In k (map_keys (fold_left
       (fun m expense =>
          let key := monthKey LocalTZA (date expense) in
          map_set String.eqb m key
            (nadd (map_get_or String.eqb m key (ofZ 0)) (amount expense)))
       l m)) ->
    In k (map_keys m) \/ exists e, In e l /\ monthKey LocalTZA (date e) = k).
  { clear l. induction l as [|x l IH]; intros m Hk; simpl in Hk.
    - left. exact Hk.
    - destruct (IH _ Hk) as [Hin|(e & He & Hkey)].
      + apply map_keys_set in Hin; [|exact String.eqb_eq].
        destruct Hin as [->|Hin]; [|left; exact Hin].
        right. exists x. split; [left; reflexivity|reflexivity].
      + right. exists e. split; [right; exact He|exact Hkey]. }
  intros Hk. destruct (G l [] Hk) as [[]|H]. exact H.
Qed.

Lemma trend_keys_Permutation (l : list (Expense num)) :
  Permutation (map (@key num) (trend LocalTZA monthLabel l))
              (map_keys (byMonth LocalTZA l)).
Proof.
  rewrite <- (trend_points_keys monthLabel (byMonth LocalTZA l)).
  apply Permutation_map, sort_Permutation.
Qed.

(** X15. The trend has a point for a month key exactly when some record of
    the filtered set falls in that month: no month is missing, and none is
    there without a record. *)
Theorem trend_keys_are_the_months (filtered : list (Expense num)) (k : string) :
  In k (map (@key num) (trend LocalTZA monthLabel filtered)) <->
  exists e, In e filtered /\ monthKey LocalTZA (date e) = k.
Proof.
  split.
  - intros Hk. apply byMonth_keys.
    apply (Permutation_in _ (trend_keys_Permutation filtered)). exact Hk.
  - intros (e & He & <-). apply trend_covers_months. exact He.
Qed.

Lemma trend_point_entry (l : list (Expense num)) (p : TrendPoint num) :
  In p (trend LocalTZA monthLabel l) ->
  In (key p, trendAmount p) (byMonth LocalTZA l) /\
  trendLabel p = monthLabel (key p).
Proof.
  intros Hp. unfold trend in Hp.
  apply (Permutation_in _ (sort_Permutation _ _)) in Hp.
  apply in_map_iff in Hp. destruct Hp as ([k v] & <- & Hin). simpl.
  split; [exact Hin|reflexivity].
Qed.

(** X16. Every point of the trend carries the sum, from left to right, of
    the amounts of the records of its month, and the label of its key;
    this holds on doubles as in exact arithmetic. *)
Theorem trend_amounts_are_month_sums (filtered : list (Expense num)) :
  Forall
    (fun p =>
       trendAmount p =
         sum (map (@amount num) (filter (inMonth LocalTZA (key p)) filtered)) /\
       trendLabel p = monthLabel (key p))
    (trend LocalTZA monthLabel filtered).
Proof.
  apply Forall_forall. intros p Hp.
  destruct (trend_point_entry _ _ Hp) as [Hin Hlabel].
  split; [|exact Hlabel].
  pose proof (map_get_In String.eqb String.eqb_eq (byMonth LocalTZA filtered)
                (key p) (trendAmount p) (byMonth_NoDup LocalTZA filtered) Hin) as Hget.
  pose proof (month_amount filtered (key p)) as Hsum.
  unfold map_get_or in Hsum. rewrite Hget in Hsum. exact Hsum.
Qed.

Lemma byMonth_length (l : list (Expense num)) :
  (List.length (byMonth LocalTZA l) <= List.length l)%nat.
Proof.
  unfold byMonth.
  assert (G : forall l (m : JsMap string num),
    (List.length (fold_left
       (fun m expense =>
          let key := monthKey LocalTZA (date expense) in
          map_set String.eqb m key
            (nadd (map_get_or String.eqb m key (ofZ 0)) (amount expense)))
       l m) <= List.length l + List.length m)%nat).
  { clear l. induction l as [|x l IH]; intros m; simpl.
    - lia.
    - eapply Nat.le_trans; [apply IH|].
      pose proof (map_set_length String.eqb m (monthKey LocalTZA (date x))
                    (nadd (map_get_or String.eqb m (monthKey LocalTZA (date x)) (ofZ 0))
                          (amount x))).
      lia. }
  specialize (G l []). simpl in G. lia.
Qed.

(** X17. The trend never has more points than the filtered set has
    records, and it is empty exactly when the filtered set is. *)
Theorem trend_length (filtered : list (Expense num)) :
  (List.length (trend LocalTZA monthLabel filtered) <= List.length filtered)%nat /\
  (trend LocalTZA monthLabel filtered = [] <-> filtered = []).
Proof.
  assert (Hlen : List.length (trend LocalTZA monthLabel filtered) =
                 List.length (byMonth LocalTZA filtered)).
  { unfold trend. rewrite (Permutation_length (sort_Permutation _ _)).
    apply length_map. }
  split.
  - rewrite Hlen. apply byMonth_length.
  - split.
    + intros Hnil. destruct filtered as [|e l]; [reflexivity|]. exfalso.
      assert (Hin : In (monthKey LocalTZA (date e))
                       (map (@key num) (trend LocalTZA monthLabel (e :: l))))
        by (apply trend_covers_months; left; reflexivity).
      rewrite Hnil in Hin. exact Hin.
    + intros ->. reflexivity.
Qed.

(** X18. The trend card shows its "not enough data" note exactly when no
    record passes the filter; otherwise it draws one bar per point of the
    trend. *)
Theorem TrendInsight_bars (filtered : list (Expense num)) :
  (TrendInsight (trend LocalTZA monthLabel filtered) = None <-> filtered = []) /\
  (forall widths,
     TrendInsight (trend LocalTZA monthLabel filtered) = Some widths ->
     List.length widths = List.length (trend LocalTZA monthLabel filtered)).
Proof.
  assert (Hempty : trend LocalTZA monthLabel filtered = [] <-> filtered = []).
  { split.
    - intros Hnil. destruct filtered as [|e l]; [reflexivity|]. exfalso.
      assert (Hin : In (monthKey LocalTZA (date e))
                       (map (@key num) (trend LocalTZA monthLabel (e :: l))))
        by (apply trend_covers_months; left; reflexivity).
      rewrite Hnil in Hin. exact Hin.
    - intros ->. reflexivity. }
  unfold TrendInsight.
  destruct (trend LocalTZA monthLabel filtered) as [|p ps] eqn:E; simpl.
  - split; [|intros widths Hw; discriminate].
    split; [intros _; apply Hempty; reflexivity|reflexivity].
  - split.
    + split; [discriminate|]. intros Hf. apply Hempty in Hf. discriminate.
    + intros widths Hw. injection Hw as <-. simpl. rewrite length_map. reflexivity.
Qed.

End TrendMore.

Section TrendExactMore.

Local Open Scope Q_scope.
Variable LocalTZA : Z -> Z.
Variable monthLabel : string -> string.

Lemma map_set_sum (m : JsMap string Q) (k : string) (a : Q) :
  sum (map snd (map_set String.eqb m k (map_get_or String.eqb m k 0 + a))) ==
  sum (map snd m) + a.
Proof.
  induction m as [|[k0 v0] m IH]; simpl.
  - unfold map_get_or. simpl. rewrite sum_cons, sum_nil. ring.
  - unfold map_get_or in *. simpl.
    destruct (String.eqb k0 k) eqn:E; simpl.
    + rewrite !sum_cons. ring.
    + rewrite !sum_cons, IH. ring.
Qed.

Lemma byMonth_sum (l : list (Expense Q)) :
  sum (map snd (byMonth LocalTZA l)) == sum (map (@amount Q) l).
Proof.
  unfold byMonth.
  assert (G : forall l (m : JsMap string Q),
    sum (map snd (fold_left
       (fun m expense =>
          let key := monthKey LocalTZA (date expense) in
          map_set String.eqb m key
            (nadd (map_get_or String.eqb m key (ofZ 0)) (amount expense)))
       l m)) == sum (map snd m) + sum (map (@amount Q) l)).
  { clear l. induction l as [|x l IH]; intros m; simpl.
    - rewrite sum_nil. ring.
    - rewrite IH. rewrite sum_cons.
      change (nadd (map_get_or String.eqb m (monthKey LocalTZA (date x)) (ofZ 0))
                   (amount x))
        with (map_get_or String.eqb m (monthKey LocalTZA (date x)) 0 + amount x).
      rewrite map_set_sum. ring. }
  rewrite G. simpl. rewrite sum_nil. ring.
Qed.

(** X19. In exact arithmetic the amounts of the trend's points add up to
    the aggregator's total for the same filtered set. *)
Theorem trend_amounts_sum_to_total (now : Z) (filtered : list (Expense Q)) :
  sumOfPoints (trend LocalTZA monthLabel filtered) == total (summary now filtered).
Proof.
  rewrite summary_total, <- byMonth_sum.
  unfold sumOfPoints, trend.
  rewrite (sum_Permutation (Permutation_map (@trendAmount Q) (sort_Permutation _ _))).
  rewrite map_map. simpl. reflexivity.
Qed.

Lemma fold_Qmax_from (vs : list Q) (init : Q) :
  In (fold_left Qmax vs init) (init :: vs) /\
  forall v, In v (init :: vs) -> v <= fold_left Qmax vs init.
Proof.
  destruct (fold_Qmax_bounds vs init) as [Hinit Hvs]. split.
  - destruct (fold_Qmax_attained vs init) as [E|Hin]; [left; symmetry; exact E|].
    right. exact Hin.
  - intros v [<-|Hv]; [exact Hinit|apply Hvs, Hv].
Qed.

(** X20. In exact arithmetic, when the amounts of the points are positive,
    every bar of the trend card is wider than 0 and at most 100 wide, and
    some bar is exactly 100 wide. *)
Theorem TrendInsight_widths (points : list (TrendPoint Q)) (widths : list Q) :
  (forall p, In p points -> 0 < trendAmount p) ->
  TrendInsight points = Some widths ->
  (forall w, In w widths -> 0 < w /\ w <= 100) /\
  (exists w, In w widths /\ w == 100).
Proof.
  intros Hpos Hsome. unfold TrendInsight in Hsome.
  destruct (map (@trendAmount Q) points) as [|a0 amounts] eqn:E; [discriminate|].
  injection Hsome as <-.
  destruct (fold_Qmax_from amounts a0) as [Hin Hle].
  change (@nmax Q Rational.number) with Qmax.
  set (M := fold_left Qmax amounts a0) in *.
  rewrite <- E in Hin, Hle.
  assert (HM : 0 < M).
  { apply in_map_iff in Hin. destruct Hin as (p & <- & Hp). apply Hpos, Hp. }
  split.
  - intros w Hw. apply in_map_iff in Hw. destruct Hw as (p & <- & Hp).
    assert (Ha : 0 < trendAmount p) by (apply Hpos, Hp).
    assert (HaM : trendAmount p <= M) by (apply Hle, in_map, Hp).
    change (0 < trendAmount p / M * 100 /\ trendAmount p / M * 100 <= 100).
    split.
    + apply Qmult_lt_0_compat; [|reflexivity].
      apply Qlt_shift_div_l; [exact HM|]. rewrite Qmult_0_l. exact Ha.
    + setoid_replace 100 with (1 * 100) at 2 by ring.
      apply Qmult_le_compat_r; [|discriminate].
      apply Qle_shift_div_r; [exact HM|]. rewrite Qmult_1_l. exact HaM.
  - apply in_map_iff in Hin. destruct Hin as (p & Hp & Hin).
    exists (trendAmount p / M * 100). split.
    + apply in_map_iff. exists p. split; [reflexivity|exact Hin].
    + rewrite Hp. field. intros Hz. rewrite Hz in HM. discriminate HM.
Qed.

End TrendExactMore.

(** * Further properties of the add-expense form *)

Section FormMore.

Context {num : Type} {N : JsNumber num}.
Variable Number : string -> num.
Variable toFixed2 : num -> num.

(** X21. A submission whose amount converts to a number above 0, with a
    date of a four-digit year set, puts exactly one new record in front of
    the store and leaves the records already there as they were; the new
    record has the rounded amount, the form's category and frequency, a
    label that is not empty, notes that are absent rather than empty, and
    the first instant (UTC) of the form's date as its timestamp. *)
Theorem valid_submission_prepends_one_record
    (uuid : string) (st : Dashboard num) (d : CivilDate) :
  nisNaN (Number (formAmount (form st))) = false ->
  nleb (Number (formAmount (form st))) (ofZ 0) = false ->
  formDate (form st) = Some d ->
  isIsoDate d = true ->
  exists newExpense,
    expenses (handleSubmit Number toFixed2 uuid st) = newExpense :: expenses st /\
    id newExpense = uuid /\
    amount newExpense = toFixed2 (Number (formAmount (form st))) /\
    category newExpense = formCategory (form st) /\
    frequency newExpense = formFrequency (form st) /\
    isEmpty (label newExpense) = false /\
    notes newExpense <> Some EmptyString /\
    date newExpense = startOfDay d /\ TimeWithinDay (date newExpense) = 0.
Proof.
  intros Hnan Hpos Hdate _. unfold handleSubmit, submission.
  rewrite Hnan, Hpos, Hdate. simpl. eexists. split; [reflexivity|]. simpl.
  destruct (newDate_startOfDay d) as (Hstart & _ & Hmidnight).
  repeat split; try assumption.
  - destruct (trim (formLabel (form st))); reflexivity.
  - destruct (trim (formNotes (form st))); simpl; discriminate.
Qed.

(** X22. A submission with a valid amount but with the date field empty
    changes nothing at all: the handler stops on the exception of
    [toISOString], so no record is added and no message is set. *)
Theorem submission_without_date_changes_nothing
    (uuid : string) (st : Dashboard num) :
  nisNaN (Number (formAmount (form st))) = false ->
  nleb (Number (formAmount (form st))) (ofZ 0) = false ->
  formDate (form st) = None ->
  submission Number toFixed2 uuid (form st) = Raised /\
  handleSubmit Number toFixed2 uuid st = st.
Proof.
  intros Hnan Hpos Hdate. unfold handleSubmit, submission.
  rewrite Hnan, Hpos, Hdate. simpl. split; reflexivity.
Qed.

(** X23. Whatever is submitted, the handler never removes, changes or
    reorders a record of the store: the store afterwards is the store
    before with at most one record in front. *)
Theorem handleSubmit_keeps_the_store (uuid : string) (st : Dashboard num) :
  exists added,
    expenses (handleSubmit Number toFixed2 uuid st) = added ++ expenses st /\
    (List.length added <= 1)%nat.
Proof.
  unfold handleSubmit.
  destruct (submission Number toFixed2 uuid (form st)) as [message| |newExpense].
  - exists []. split; [reflexivity|simpl; lia].
  - exists []. split; [reflexivity|simpl; lia].
  - exists [newExpense]. split; [reflexivity|simpl; lia].
Qed.

(** X24. A record added through the form passes both date bounds of a
    filter whose start and end date are the record's own day: its
    timestamp is the first instant of that day, the one instant the end
    bound lets through. *)
Theorem submitted_record_passes_its_own_day
    (uuid : string) (st : Dashboard num) (d : CivilDate)
    (filters : Filters) (newExpense : Expense num) :
  submission Number toFixed2 uuid (form st) = Accepted newExpense ->
  formDate (form st) = Some d ->
  startDate filters = Some d -> endDate filters = Some d ->
  matchesStart filters newExpense = true /\ matchesEnd filters newExpense = true.
Proof.
  intros Hsub Hdate Hs He. unfold submission in Hsub.
  destruct (nisNaN (Number (formAmount (form st)))
            || nleb (Number (formAmount (form st))) (ofZ 0)); [discriminate|].
  rewrite Hdate in Hsub. injection Hsub as <-.
  unfold matchesStart, matchesEnd. rewrite Hs, He. simpl.
  split; apply Z.leb_refl.
Qed.

End FormMore.

(** * The calendar and the seed dates *)

Section Calendar.

Lemma daysFromCivil_day (c : CivilDate) (delta : Z) :
  daysFromCivil {| year := year c; month := month c; day := day c + delta |} =
  daysFromCivil c + delta.
Proof. unfold daysFromCivil. simpl. lia. Qed.

(** Within an era of 400 years, the year of the era, the day of the year
    and the month (counted from March) stay within their bounds. *)
Lemma era_day_bounds (doe : Z) :
  0 <= doe < 146097 ->
  let yoe := (doe - doe / 1460 + doe / 36524 - doe / 146096) / 365 in
  let doy := doe - (365 * yoe + yoe / 4 - yoe / 100) in
  0 <= yoe <= 399 /\ 0 <= doy <= 365 /\ 0 <= (5 * doy + 2) / 153 <= 11.
Proof.
  intros H yoe doy. subst doy yoe. Z.div_mod_to_equations. lia.
Qed.

Lemma civil_round_trip (n : Z) : daysFromCivil (civilFromDays n) = n.
Proof.
  unfold civilFromDays. cbv zeta.
  set (z := n + 719468).
  set (era := z / 146097).
  set (doe := z - era * 146097).
  assert (Hdoe : 0 <= doe < 146097).
  { subst doe era. pose proof (Z.div_mod z 146097 ltac:(discriminate)).
    pose proof (Z.mod_pos_bound z 146097 ltac:(reflexivity)). lia. }
  destruct (era_day_bounds Hdoe) as (Hyoe & Hdoy & Hmp).
  cbv zeta in Hyoe, Hdoy, Hmp.
  set (yoe := (doe - doe / 1460 + doe / 36524 - doe / 146096) / 365) in *.
  set (doy := doe - (365 * yoe + yoe / 4 - yoe / 100)) in *.
  set (mp := (5 * doy + 2) / 153) in *.
  set (d := doy - (153 * mp + 2) / 5 + 1).
  set (m := if mp <? 10 then mp + 3 else mp - 9).
  assert (Hm : (m <=? 2) = negb (mp <? 10) /\ (if 2 <? m then m - 3 else m + 9) = mp).
  { subst m. destruct (Z.ltb_spec mp 10).
    - split; [apply Z.leb_gt; lia|]. destruct (Z.ltb_spec 2 (mp + 3)); lia.
    - split; [apply Z.leb_le; lia|]. destruct (Z.ltb_spec 2 (mp - 9)); lia. }
  destruct Hm as [Hle Hback].
  unfold daysFromCivil. cbn [year month day]. cbv zeta.
  rewrite Hback.
  assert (Hy : (if m <=? 2
                then (if m <=? 2 then yoe + era * 400 + 1 else yoe + era * 400) - 1
                else (if m <=? 2 then yoe + era * 400 + 1 else yoe + era * 400))
               = yoe + era * 400)
    by (destruct (m <=? 2); lia).
  rewrite Hy.
  assert (Hera : (yoe + era * 400) / 400 = era).
  { rewrite Z.div_add by discriminate. rewrite Z.div_small by lia. lia. }
  rewrite Hera.
  replace (yoe + era * 400 - era * 400) with yoe by lia.
  subst d doy z doe. lia.
Qed.

(** X25. The calendar round trip: the day number of the calendar date of a
    day number is that day number, for every day before and after the
    epoch. *)
Theorem daysFromCivil_civilFromDays (n : Z) :
  daysFromCivil (civilFromDays n) = n.
Proof. apply civil_round_trip. Qed.

(** X26. In a zone whose offset from UTC never changes, [shiftDays(delta)]
    is the clock's instant moved by [delta] whole days, for every [delta]
    and every reading of the clock; it raises exactly when that instant is
    outside the range of [Date]. *)
Theorem shiftDays_fixed_offset (tz now delta : Z) :
  shiftDays (fixedOffset tz) (fixedOffset tz) now delta =
  if Z.abs (now + delta * msPerDay) <=? 8640000000000000
  then Some (now + delta * msPerDay) else None.
Proof.
  unfold shiftDays.
  assert (E : setDate (fixedOffset tz) (fixedOffset tz) now
                (getDate (fixedOffset tz) now + delta) = now + delta * msPerDay).
  { unfold setDate, getDate, UTC, LocalTime, fixedOffset.
    set (local := now + tz).
    rewrite daysFromCivil_day, civil_round_trip.
    unfold Day, TimeWithinDay, msPerDay.
    pose proof (Z.div_mod local 86400000 ltac:(discriminate)). lia. }
  rewrite E. reflexivity.
Qed.

End Calendar.

(** * The month keys *)

Lemma civilFromDays_bounds (n : Z) :
  1 <= month (civilFromDays n) <= 12 /\ 1 <= day (civilFromDays n) <= 31.
Proof.
  unfold civilFromDays. cbv zeta. cbn [month day].
  set (z := n + 719468).
  set (era := z / 146097).
  set (doe := z - era * 146097).
  assert (Hdoe : 0 <= doe < 146097).
  { subst doe era. pose proof (Z.div_mod z 146097 ltac:(discriminate)).
    pose proof (Z.mod_pos_bound z 146097 ltac:(reflexivity)). lia. }
  destruct (era_day_bounds Hdoe) as (Hyoe & Hdoy & Hmp).
  cbv zeta in Hyoe, Hdoy, Hmp.
  set (yoe := (doe - doe / 1460 + doe / 36524 - doe / 146096) / 365) in *.
  set (doy := doe - (365 * yoe + yoe / 4 - yoe / 100)) in *.
  clearbody doy. clear - Hdoy.
  split.
  - destruct (Z.ltb_spec ((5 * doy + 2) / 153) 10); Z.div_mod_to_equations; lia.
  - Z.div_mod_to_equations. lia.
Qed.

(** X27. The calendar date of a day number is a date of the calendar: its
    month is 1 to 12 and its day 1 to 31. *)
Theorem civilFromDays_valid (n : Z) :
  1 <= month (civilFromDays n) <= 12 /\ 1 <= day (civilFromDays n) <= 31.
Proof. apply civilFromDays_bounds. Qed.

Lemma stringOfZ_injective (a b : Z) : stringOfZ a = stringOfZ b -> a = b.
Proof.
  assert (G : forall d, exists d',
             NilZero.int_of_string (NilZero.string_of_int d) = Some d' /\
             Z.of_int d' = Z.of_int d).
  { intros d.
    destruct (Decimal.int_eq_dec d (Decimal.Pos Decimal.Nil)) as [->|Hp].
    - eexists. split; [apply NilZero.isi_posnil|reflexivity].
    - destruct (Decimal.int_eq_dec d (Decimal.Neg Decimal.Nil)) as [->|Hn].
      + eexists. split; [apply NilZero.isi_negnil|reflexivity].
      + exists d. split; [apply NilZero.isi; assumption|reflexivity]. }
  unfold stringOfZ. intros H.
  destruct (G (Z.to_int a)) as (da & Ha & Hza).
  destruct (G (Z.to_int b)) as (db & Hb & Hzb).
  rewrite H in Ha. rewrite Ha in Hb. injection Hb as ->.
  rewrite <- (DecimalZ.of_to a), <- (DecimalZ.of_to b). congruence.
Qed.

Lemma length_append (s t : string) :
  String.length (s ++ t) = (String.length s + String.length t)%nat.
Proof. induction s as [|c s IH]; simpl; [reflexivity|]. rewrite IH. reflexivity. Qed.

Lemma append_injective (s1 s2 t1 t2 : string) :
  String.length t1 = String.length t2 ->
  (s1 ++ t1 = s2 ++ t2)%string -> s1 = s2 /\ t1 = t2.
Proof.
  intros Hlen. revert s2. induction s1 as [|c s1 IH]; intros s2 H.
  - destruct s2 as [|c2 s2]; [split; [reflexivity|exact H]|].
    simpl in H. exfalso. apply (f_equal String.length) in H.
    simpl in H. rewrite length_append in H. lia.
  - destruct s2 as [|c2 s2].
    + simpl in H. exfalso. apply (f_equal String.length) in H.
      simpl in H. rewrite length_append in H. lia.
    + simpl in H. injection H as -> H. destruct (IH _ H) as [-> ->].
      split; reflexivity.
Qed.

Lemma padded_month (m1 m2 : Z) :
  1 <= m1 <= 12 -> 1 <= m2 <= 12 ->
  String.length (padStart2 (stringOfZ m1)) = 2%nat /\
  (padStart2 (stringOfZ m1) = padStart2 (stringOfZ m2) -> m1 = m2).
Proof.
  intros H1 H2.
  assert (C1 : m1 = 1 \/ m1 = 2 \/ m1 = 3 \/ m1 = 4 \/ m1 = 5 \/ m1 = 6 \/
               m1 = 7 \/ m1 = 8 \/ m1 = 9 \/ m1 = 10 \/ m1 = 11 \/ m1 = 12) by lia.
  assert (C2 : m2 = 1 \/ m2 = 2 \/ m2 = 3 \/ m2 = 4 \/ m2 = 5 \/ m2 = 6 \/
               m2 = 7 \/ m2 = 8 \/ m2 = 9 \/ m2 = 10 \/ m2 = 11 \/ m2 = 12) by lia.
  split.
  - repeat (destruct C1 as [->|C1]; [reflexivity|]). subst m1. reflexivity.
  - repeat (destruct C1 as [->|C1];
            [repeat (destruct C2 as [->|C2];
                     [vm_compute; intros E; try reflexivity; discriminate E|]);
             subst m2; vm_compute; intros E; try reflexivity; discriminate E|]).
    subst m1.
    repeat (destruct C2 as [->|C2];
            [vm_compute; intros E; try reflexivity; discriminate E|]).
    subst m2. reflexivity.
Qed.

Section MonthKeys.

Variable LocalTZA : Z -> Z.

(** X28. Two instants get the same month key exactly when they fall in
    the same year and the same month of local time, so the trend groups
    the records by calendar month. *)
Theorem monthKey_groups_by_month (t1 t2 : Z) :
  monthKey LocalTZA t1 = monthKey LocalTZA t2 <->
  getFullYear LocalTZA t1 = getFullYear LocalTZA t2 /\
  getMonth LocalTZA t1 = getMonth LocalTZA t2.
Proof.
  split.
  - unfold monthKey. intros H.
    assert (B1 : 1 <= getMonth LocalTZA t1 + 1 <= 12).
    { unfold getMonth. pose proof (civilFromDays_bounds (Day (LocalTime LocalTZA t1))). lia. }
    assert (B2 : 1 <= getMonth LocalTZA t2 + 1 <= 12).
    { unfold getMonth. pose proof (civilFromDays_bounds (Day (LocalTime LocalTZA t2))). lia. }
    destruct (padded_month B1 B2) as [L1 Hinj].
    destruct (padded_month B2 B1) as [L2 _].
    apply append_injective in H.
    + destruct H as [Hy Hm]. split; [apply stringOfZ_injective, Hy|].
      simpl in Hm. injection Hm as Hm. apply Hinj in Hm. lia.
    + simpl. rewrite L1, L2. reflexivity.
  - intros [Hy Hm]. unfold monthKey. rewrite Hy, Hm. reflexivity.
Qed.
End MonthKeys.

(** * No division by zero *)

Section Divisors.

Local Open Scope Q_scope.

(** X29. In exact arithmetic every divisor the aggregator uses is at least
    1, whatever the filtered set: it never divides by zero. *)
Theorem aggregator_divisors_at_least_one (now : Z) (filtered : list (Expense Q)) :
  Forall (fun division => 1 <= snd division) (summaryDivisions now filtered).
Proof.
  unfold summaryDivisions.
  destruct (List.length filtered =? 0)%nat; [constructor|].
  assert (Hmax : forall q, 1 <= nmax (ofZ 1) q) by (intros q; apply Q.le_max_l).
  repeat constructor; simpl snd; try apply Hmax; discriminate.
Qed.

End Divisors.

(** * The further theorems at concrete inputs *)

Section MoreInstances.

Local Open Scope Q_scope.

Lemma fortyDays_amounts :
  forall e, In e MoreSamples.fortyDays -> 0 <= amount e.
Proof. intros e [<-|[<-|[<-|[]]]]; simpl; discriminate. Defined.

Lemma start_bound_at_noon :
  let d := {| year := 2024; month := 1; day := 1 |} in
  let rent := Samples.expense "Rent" (1800 # 1) Housing Recurring (Samples.noon 0) in
  startDate MoreSamples.newYearOnly = Some d /\
  isIsoDate d = true /\
  (daysFromCivil d <= Day (date rent))%Z /\
  matchesStart MoreSamples.newYearOnly rent = true.
Proof.
  cbv zeta. split; [reflexivity|]. split; [reflexivity|].
  assert (Hday : (daysFromCivil {| year := 2024; month := 1; day := 1 |}
                  <= Day (Samples.noon 0))%Z)
    by (vm_compute; intros H; discriminate H).
  split; [exact Hday|].
  apply (proj2 (start_bound_is_whole_day MoreSamples.newYearOnly
                  (Samples.expense "Rent" (1800 # 1) Housing Recurring (Samples.noon 0))
                  eq_refl eq_refl)).
  exact Hday.
Defined.

Lemma inverted_range_is_empty :
  startDate MoreSamples.inverted = Some {| year := 2024; month := 2; day := 1 |} /\
  endDate MoreSamples.inverted = Some {| year := 2024; month := 1; day := 1 |} /\
  (daysFromCivil {| year := 2024; month := 1; day := 1 |}
   < daysFromCivil {| year := 2024; month := 2; day := 1 |})%Z /\
  filteredExpenses MoreSamples.fortyDays MoreSamples.inverted = [].
Proof.
  assert (Hlt : (daysFromCivil {| year := 2024; month := 1; day := 1 |}
                 < daysFromCivil {| year := 2024; month := 2; day := 1 |})%Z)
    by (vm_compute; reflexivity).
  split; [reflexivity|]. split; [reflexivity|]. split; [exact Hlt|].
  exact (@filteredExpenses_inverted_range Q MoreSamples.fortyDays MoreSamples.inverted
           _ _ eq_refl eq_refl Hlt).
Defined.

Lemma single_day_keeps_midnight :
  let d := {| year := 2024; month := 1; day := 1 |} in
  let tea := Samples.expense "Tea" (9 # 2) Food OneTime 1704067200000 in
  startDate MoreSamples.newYearOnly = Some d /\
  endDate MoreSamples.newYearOnly = Some d /\
  isIsoDate d = true /\
  In tea (filteredExpenses MoreSamples.atMidnight MoreSamples.newYearOnly) /\
  date tea = startOfDay d.
Proof.
  cbv zeta.
  assert (Hin : In (Samples.expense "Tea" (9 # 2) Food OneTime 1704067200000)
                   (filteredExpenses MoreSamples.atMidnight MoreSamples.newYearOnly))
    by (left; reflexivity).
  split; [reflexivity|]. split; [reflexivity|]. split; [reflexivity|].
  split; [exact Hin|].
  exact (@filteredExpenses_single_day Q MoreSamples.atMidnight MoreSamples.newYearOnly
           _ _ eq_refl eq_refl eq_refl Hin).
Defined.

Lemma two_blanks_filter_like_none :
  allWhiteSpace "  " = true /\
  filteredExpenses MoreSamples.fortyDays (onSearchChange defaultFilters "  ") =
  filteredExpenses MoreSamples.fortyDays (onSearchChange defaultFilters "").
Proof.
  split; [reflexivity|].
  exact (@filteredExpenses_blank_search Q MoreSamples.fortyDays defaultFilters "  "
           eq_refl).
Defined.

Lemma upper_case_rent_finds_rent :
  isAscii "RENT" = true /\
  filteredExpenses MoreSamples.fortyDays (onSearchChange defaultFilters "rent") =
    [Samples.expense "Rent" (1800 # 1) Housing Recurring (Samples.noon 0)] /\
  filteredExpenses MoreSamples.fortyDays (onSearchChange defaultFilters "rent") =
  filteredExpenses MoreSamples.fortyDays (onSearchChange defaultFilters "RENT").
Proof.
  split; [reflexivity|]. split; [reflexivity|].
  exact (@filteredExpenses_search_case Q MoreSamples.fortyDays defaultFilters "RENT"
           eq_refl).
Defined.

Lemma recurring_of_forty_days :
  (forall e, In e MoreSamples.fortyDays -> 0 <= amount e) /\
  recurringTotal (summary 0 MoreSamples.fortyDays)
    <= total (summary 0 MoreSamples.fortyDays).
Proof.
  split; [exact fortyDays_amounts|].
  exact (recurringTotal_at_most_total 0 MoreSamples.fortyDays fortyDays_amounts).
Defined.

Lemma spans_of_forty_days :
  IsMinimum (Samples.noon (-40)) (map (@date Q) MoreSamples.fortyDays) /\
  IsMaximum (Samples.noon 0) (map (@date Q) MoreSamples.fortyDays) /\
  (diffDays 0 (totals MoreSamples.fortyDays) == 40) /\
  (diffMonths 0 (totals MoreSamples.fortyDays) == 2).
Proof.
  assert (Hlo : IsMinimum (Samples.noon (-40)) (map (@date Q) MoreSamples.fortyDays)).
  { split; [right; right; left; reflexivity|].
    intros x [<-|[<-|[<-|[]]]]; simpl; unfold Samples.noon, msPerDay; lia. }
  assert (Hhi : IsMaximum (Samples.noon 0) (map (@date Q) MoreSamples.fortyDays)).
  { split; [left; reflexivity|].
    intros x [<-|[<-|[<-|[]]]]; simpl; unfold Samples.noon, msPerDay; lia. }
  destruct (@spans_are_whole_days_and_months 0 MoreSamples.fortyDays _ _ Hlo Hhi)
    as [Hdays Hmonths].
  split; [exact Hlo|]. split; [exact Hhi|].
  split; [rewrite Hdays|rewrite Hmonths]; reflexivity.
Defined.

Lemma averages_of_forty_days :
  (forall e, In e MoreSamples.fortyDays -> 0 <= amount e) /\
  avgDaily (summary 0 MoreSamples.fortyDays)
    <= avgMonthly (summary 0 MoreSamples.fortyDays).
Proof.
  split; [exact fortyDays_amounts|].
  exact (avgDaily_at_most_avgMonthly 0 MoreSamples.fortyDays fortyDays_amounts).
Defined.

Lemma gym_first_same_summary :
  Permutation MoreSamples.fortyDays MoreSamples.gymFirst /\
  SameSummary (summary 0 MoreSamples.fortyDays) (summary 0 MoreSamples.gymFirst).
Proof.
  assert (Hperm : Permutation MoreSamples.fortyDays MoreSamples.gymFirst)
    by apply perm_swap.
  split; [exact Hperm|].
  exact (summary_ignores_order 0 Hperm).
Defined.

Lemma three_records_of_one_instant :
  Samples.threeSmallRationals <> [] /\
  allAt (Samples.noon 0) Samples.threeSmallRationals /\
  (avgDaily (summary 0 Samples.threeSmallRationals)
   == total (summary 0 Samples.threeSmallRationals)).
Proof.
  assert (Hne : Samples.threeSmallRationals <> []) by discriminate.
  assert (Hall : allAt (Samples.noon 0) Samples.threeSmallRationals)
    by (intros e [<-|[<-|[<-|[]]]]; reflexivity).
  split; [exact Hne|]. split; [exact Hall|].
  destruct (one_instant_averages 0 Hne Hall) as (_ & _ & Hdaily & _).
  exact Hdaily.
Defined.

Lemma widths_of_two_points :
  (forall p, In p MoreSamples.twoPoints -> 0 < trendAmount p) /\
  exists widths,
    TrendInsight MoreSamples.twoPoints = Some widths /\
    (forall w, In w widths -> 0 < w /\ w <= 100) /\
    (exists w, In w widths /\ w == 100).
Proof.
  assert (Hpos : forall p, In p MoreSamples.twoPoints -> 0 < trendAmount p)
    by (intros p [<-|[<-|[]]]; reflexivity).
  split; [exact Hpos|].
  eexists. split; [reflexivity|].
  exact (@TrendInsight_widths MoreSamples.twoPoints _ Hpos eq_refl).
Defined.

Lemma tea_is_prepended :
  let st := MoreSamples.dashboard in
  let st' := handleSubmit MoreSamples.readAsFourAndAHalf MoreSamples.keepAsIs "uuid" st in
  nisNaN (MoreSamples.readAsFourAndAHalf (formAmount (form st))) = false /\
  nleb (MoreSamples.readAsFourAndAHalf (formAmount (form st))) (ofZ 0) = false /\
  formDate (form st) = Some {| year := 2024; month := 3; day := 5 |} /\
  isIsoDate {| year := 2024; month := 3; day := 5 |} = true /\
  exists newExpense,
    expenses st' = newExpense :: expenses st /\
    label newExpense = "Tea"%string /\ notes newExpense = None.
Proof.
  cbv zeta.
  destruct (@valid_submission_prepends_one_record Q Rational.number
              MoreSamples.readAsFourAndAHalf MoreSamples.keepAsIs "uuid"
              MoreSamples.dashboard {| year := 2024; month := 3; day := 5 |}
              eq_refl eq_refl eq_refl eq_refl) as (newExpense & Hexp & _).
  split; [reflexivity|]. split; [reflexivity|]. split; [reflexivity|].
  split; [reflexivity|].
  exists newExpense. split; [exact Hexp|].
  injection Hexp as <-. split; reflexivity.
Defined.

Lemma tea_without_date_changes_nothing :
  let st := MoreSamples.dashboardWithoutDate in
  nisNaN (MoreSamples.readAsFourAndAHalf (formAmount (form st))) = false /\
  nleb (MoreSamples.readAsFourAndAHalf (formAmount (form st))) (ofZ 0) = false /\
  formDate (form st) = None /\
  handleSubmit MoreSamples.readAsFourAndAHalf MoreSamples.keepAsIs "uuid" st = st.
Proof.
  cbv zeta. split; [reflexivity|]. split; [reflexivity|]. split; [reflexivity|].
  exact (proj2 (@submission_without_date_changes_nothing Q Rational.number
                  MoreSamples.readAsFourAndAHalf MoreSamples.keepAsIs "uuid"
                  MoreSamples.dashboardWithoutDate eq_refl eq_refl eq_refl)).
Defined.

Lemma tea_passes_its_own_day :
  exists newExpense,
    submission MoreSamples.readAsFourAndAHalf MoreSamples.keepAsIs "uuid"
      (form MoreSamples.dashboard) = Accepted newExpense /\
    matchesStart MoreSamples.fifthOfMarch newExpense = true /\
    matchesEnd MoreSamples.fifthOfMarch newExpense = true.
Proof.
  eexists. split; [reflexivity|].
  exact (@submitted_record_passes_its_own_day Q Rational.number
           MoreSamples.readAsFourAndAHalf MoreSamples.keepAsIs "uuid"
           MoreSamples.dashboard {| year := 2024; month := 3; day := 5 |}
           MoreSamples.fifthOfMarch _ eq_refl eq_refl eq_refl eq_refl).
Defined.

End MoreInstances.
